(** * SBOM generator ([tools/compliance/write_sbom.py]): model and properties

    A shallow embedding of the SBOM generator.  Python values that come out
    of [json.loads] are modelled by the type [json]; Python exceptions by
    the error monad [result]; strings by [string], one [ascii] per code
    point (code points below 256, so that [lower], [strip] and the UTF-8
    encoding fed to MD5 are exact on Latin-1 text). *)

From Stdlib Require Import ZArith QArith List String Ascii Bool Lia.
Import ListNotations.

Local Open Scope string_scope.
Local Open Scope Z_scope.

(** ** Exceptions *)

Inductive exn : Type :=
| AttributeError (attr : string)
| KeyError (key : string)
| IndexError
| TypeError
| ValueError
| NameError (name : string)
| OSError.

Inductive result (A : Type) : Type :=
| Ok (a : A)
| Raise (e : exn).

Arguments Ok {A} a.
Arguments Raise {A} e.

Definition bind {A B : Type} (m : result A) (k : A -> result B) : result B :=
  match m with
  | Ok a => k a
  | Raise e => Raise e
  end.

Notation "x <- m ;; k" := (bind m (fun x => k))
  (at level 61, m at next level, right associativity).
Notation "' p <- m ;; k" := (bind m (fun x => match x with p => k end))
  (at level 61, p pattern, m at next level, right associativity).

(** ** Python [str] methods used by the tool *)

Module Str.

Definition len (s : string) : Z := Z.of_nat (String.length s).

Fixpoint startswith (s p : string) : bool :=
  match p, s with
  | EmptyString, _ => true
  | String a p', String b s' => Ascii.eqb a b && startswith s' p'
  | String _ _, EmptyString => false
  end.

(** [s.find(sub)] scanning from offset [i]: the lowest index where [sub]
    occurs, or -1. *)
Fixpoint find_from (s sub : string) (i : Z) : Z :=
  match s with
  | EmptyString => if startswith s sub then i else -1
  | String _ s' => if startswith s sub then i else find_from s' sub (i + 1)
  end.

Definition find (s sub : string) : Z := find_from s sub 0.

(** [sub in s] *)
Definition contains (s sub : string) : bool := 0 <=? find s sub.

(** Slice bounds as Python normalises them: a negative bound counts from
    the end, and everything is clipped to [0, len]. *)
Definition clip (n i : Z) : Z :=
  if i <? 0 then Z.max 0 (n + i) else Z.min i n.

Fixpoint drop (n : nat) (s : string) : string :=
  match n, s with
  | O, _ => s
  | Datatypes.S _, EmptyString => EmptyString
  | Datatypes.S n', String _ s' => drop n' s'
  end.

Fixpoint take (n : nat) (s : string) : string :=
  match n, s with
  | O, _ => EmptyString
  | Datatypes.S _, EmptyString => EmptyString
  | Datatypes.S n', String c s' => String c (take n' s')
  end.

(** [s[lo:hi]]; [None] is an omitted bound. *)
Definition slice (s : string) (lo hi : option Z) : string :=
  let n := len s in
  let a := match lo with None => 0 | Some i => clip n i end in
  let b := match hi with None => n | Some j => clip n j end in
  take (Z.to_nat (b - a)) (drop (Z.to_nat a) s).

(** [c in s] for a single character. *)
Fixpoint has_char (c : ascii) (s : string) : bool :=
  match s with
  | EmptyString => false
  | String a s' => Ascii.eqb a c || has_char c s'
  end.

Definition endswith (s suffix : string) : bool :=
  let n := len s in
  let k := len suffix in
  (k <=? n) && String.eqb (slice s (Some (n - k)) None) suffix.

Fixpoint lstrip (strippable : ascii -> bool) (s : string) : string :=
  match s with
  | EmptyString => EmptyString
  | String c s' => if strippable c then lstrip strippable s' else s
  end.

Fixpoint rstrip (strippable : ascii -> bool) (s : string) : string :=
  match s with
  | EmptyString => EmptyString
  | String c s' =>
      match rstrip strippable s' with
      | EmptyString => if strippable c then EmptyString else String c EmptyString
      | r => String c r
      end
  end.

(** [s.strip(chars)] *)
Definition strip (strippable : ascii -> bool) (s : string) : string :=
  rstrip strippable (lstrip strippable s).

(** What [str.isspace] accepts among the code points below 256. *)
Definition isspace (c : ascii) : bool :=
  let n := Z.of_nat (nat_of_ascii c) in
  ((9 <=? n) && (n <=? 13)) || ((28 <=? n) && (n <=? 32))
  || (n =? 133) || (n =? 160).

(** [s.split(sep)] for a one-character separator. *)
Fixpoint split (sep : ascii) (s : string) : list string :=
  match s with
  | EmptyString => [EmptyString]
  | String c s' =>
      if Ascii.eqb c sep then EmptyString :: split sep s'
      else match split sep s' with
           | seg :: rest => String c seg :: rest
           | [] => [String c EmptyString]
           end
  end.

(** [s.split(sep, 1)]: cut at the leftmost occurrence of [sep], if any. *)
Definition split1 (sep s : string) : list string :=
  let i := find s sep in
  if i <? 0 then [s]
  else [slice s None (Some i); slice s (Some (i + len sep)) None].

(** [s.split()]: the maximal runs of non-whitespace characters. *)
Fixpoint split_whitespace (s : string) : list string :=
  match s with
  | EmptyString => []
  | String c s' =>
      if isspace c then split_whitespace s'
      else match s' with
           | EmptyString => [String c EmptyString]
           | String c' _ =>
               if isspace c' then String c EmptyString :: split_whitespace s'
               else match split_whitespace s' with
                    | tok :: rest => String c tok :: rest
                    | [] => [String c EmptyString]
                    end
           end
  end.

(** [s.replace(a, b)] for one-character [a] and [b]. *)
Fixpoint replace (a b : ascii) (s : string) : string :=
  match s with
  | EmptyString => EmptyString
  | String c s' => String (if Ascii.eqb c a then b else c) (replace a b s')
  end.

(** [sep.join(parts)] *)
Fixpoint join (sep : string) (parts : list string) : string :=
  match parts with
  | [] => EmptyString
  | [p] => p
  | p :: rest => p ++ sep ++ join sep rest
  end.

Definition lower_char (c : ascii) : ascii :=
  let n := Z.of_nat (nat_of_ascii c) in
  if ((65 <=? n) && (n <=? 90))
     || ((192 <=? n) && (n <=? 222) && negb (n =? 215))
  then ascii_of_nat (nat_of_ascii c + 32) else c.

Fixpoint lower (s : string) : string :=
  match s with
  | EmptyString => EmptyString
  | String c s' => String (lower_char c) (lower s')
  end.

End Str.

(** ** Python lists: indexing and slicing *)

Module PyList.

Definition len {A} (l : list A) : Z := Z.of_nat (List.length l).

(** [l[i]]: a negative index counts from the end; out of range raises. *)
Definition index {A} (l : list A) (i : Z) : result A :=
  let j := if i <? 0 then len l + i else i in
  if j <? 0 then Raise IndexError
  else match nth_error l (Z.to_nat j) with
       | Some x => Ok x
       | None => Raise IndexError
       end.

(** [l[:hi]] *)
Definition slice_to {A} (l : list A) (hi : Z) : list A :=
  firstn (Z.to_nat (Str.clip (len l) hi)) l.

End PyList.

(** ** The URL and path parsers *)

Definition maven_info : Type :=
  option string * option string * option string * bool.

(** The [for indicator in base_indicators] loop; the result is the last
    value assigned to [idx]. *)
Fixpoint find_base (url : string) (base_indicators : list string) (idx : Z)
  : Z :=
  match base_indicators with
  | [] => idx
  | indicator :: rest =>
      let idx := Str.find url indicator in
      if 0 <=? idx then idx + Str.len indicator
      else find_base url rest idx
  end.

Definition extract_maven_info_from_url (url : string) : result maven_info :=
  let base_indicators := ["/maven2/"; "/repository/"] in
  let idx := find_base url base_indicators (-1) in
  if idx =? -1 then Ok (None, None, None, false)
  else
    let path := Str.slice url (Some idx) None in
    let segments := Str.split "/" (Str.strip (Ascii.eqb "/") path) in
    if PyList.len segments <? 4 then Ok (None, None, None, false)
    else
      filename <- PyList.index segments (-1) ;;
      let is_sources := Str.endswith filename "sources.jar" in
      version <- PyList.index segments (-2) ;;
      seg3 <- PyList.index segments (-3) ;;
      let artifactId := Str.replace "_" "-" seg3 in
      let groupId := Str.join "." (PyList.slice_to segments (-3)) in
      Ok (Some groupId, Some artifactId, Some version, is_sources).

Definition parse_release_filename (release_filename : string)
  : option string * option string :=
  let version_and_name := Str.split1 "/" release_filename in
  match version_and_name with
  | [version; name_with_ext] =>
      let name :=
        if Str.endswith name_with_ext ".tar.gz"
        then Str.slice name_with_ext None (Some (- Str.len ".tar.gz"))
        else name_with_ext in
      let name := Str.replace "_" "-" name in
      (Some name, Some version)
  | _ => (None, None)
  end.

(** ** JSON values, as [json.loads] builds them

    A number is an [int] or a [float]; an object is a [dict], kept as the
    list of its items in insertion order (the keys of a [dict] are pairwise
    distinct). *)

#[warnings="-register-all"]
Inductive json : Type :=
| JNull
| JBool (b : bool)
| JInt (n : Z)
| JFloat (q : Q)
| JStr (s : string)
| JArr (items : list json)
| JObj (members : list (string * json)).

(** Truth value of an object in a condition ([if not x]). *)
Definition truthy (v : json) : bool :=
  match v with
  | JNull => false
  | JBool b => b
  | JInt n => negb (n =? 0)
  | JFloat q => negb (Qeq_bool q 0)
  | JStr s => negb (String.eqb s "")
  | JArr items => match items with [] => false | _ => true end
  | JObj members => match members with [] => false | _ => true end
  end.

(** Truth value of a [str] or [None]. *)
Definition truthy_str (v : option string) : bool :=
  match v with
  | None => false
  | Some s => negb (String.eqb s "")
  end.

(** Calling a [str] method [attr] on a value: anything but a [str] has no
    such attribute. *)
Definition str_receiver (attr : string) (v : json) : result string :=
  match v with
  | JStr s => Ok s
  | _ => Raise (AttributeError attr)
  end.

(** [v[0]] *)
Definition subscript0 (v : json) : result json :=
  match v with
  | JArr (x :: _) => Ok x
  | JArr [] => Raise IndexError
  | JStr (String c _) => Ok (JStr (String c EmptyString))
  | JStr EmptyString => Raise IndexError
  | JObj _ => Raise (KeyError "0")
  | _ => Raise TypeError
  end.

Module Dict.

Fixpoint lookup {A} (key : string) (members : list (string * A)) : option A :=
  match members with
  | [] => None
  | (k, v) :: rest => if String.eqb k key then Some v else lookup key rest
  end.

(** [d.get(key, default)] *)
Definition get (d : json) (key : string) (default : json) : result json :=
  match d with
  | JObj members =>
      Ok (match lookup key members with Some v => v | None => default end)
  | _ => Raise (AttributeError "get")
  end.

(** [d.items()] *)
Definition items (d : json) : result (list (string * json)) :=
  match d with
  | JObj members => Ok members
  | _ => Raise (AttributeError "items")
  end.

(** [d[key] = value] on the items of a dict: an existing key keeps its
    place. *)
Fixpoint set (members : list (string * json)) (key : string) (value : json)
  : list (string * json) :=
  match members with
  | [] => [(key, value)]
  | (k, v) :: rest =>
      if String.eqb k key then (k, value) :: rest
      else (k, v) :: set rest key value
  end.

(** [d[key]] *)
Definition getitem (d : json) (key : string) : result json :=
  match d with
  | JObj members =>
      match lookup key members with
      | Some v => Ok v
      | None => Raise (KeyError key)
      end
  | _ => Raise TypeError
  end.

End Dict.

(** A [for] loop whose body updates the loop state or raises; [continue]
    is a body that returns the state as it got it. *)
Fixpoint for_each {A S : Type} (xs : list A) (body : A -> S -> result S)
  (st : S) : result S :=
  match xs with
  | [] => Ok st
  | x :: rest => st' <- body x st ;; for_each rest body st'
  end.

(** ** Dependency records

    The dicts that [bazel_lock_to_packages] builds, one constructor per
    value of the ["type"] key; [Other] is a record of any other type. *)

Inductive dependency : Type :=
| Maven (groupId artifactId version url : string) (is_sources : bool)
| Python (name version url : string)
| PythonNoPip (name version : string) (url : json)
| Other (type : string).

(** ** The lock-file normalizer *)

Definition package_key : Type := string * string.

Definition key_eqb (a b : package_key) : bool :=
  String.eqb (fst a) (fst b) && String.eqb (snd a) (snd b).

(** [package_key in seen_python_packages] *)
Definition seen_mem (k : package_key) (seen : list package_key) : bool :=
  existsb (key_eqb k) seen.

Record norm_state : Type := {
  dependencies : list dependency;
  seen_python_packages : list package_key
}.

(** [str(x)] of the value of [os.getenv], inside an f-string. *)
Definition format_env (v : option string) : string :=
  match v with
  | Some s => s
  | None => "None"
  end.

(** Body of the loop over the Maven extension's repo specs. *)
Definition maven_spec (dep_info : json) (st : norm_state) : result norm_state :=
  attributes <- Dict.get dep_info "attributes" (JObj []) ;;
  urls <- Dict.get attributes "urls" (JArr []) ;;
  if negb (truthy urls) then Ok st
  else
    url <- subscript0 urls ;;
    url <- str_receiver "find" url ;;
    '(groupId, artifactId, version, is_sources) <-
      extract_maven_info_from_url url ;;
    if negb (truthy_str groupId && truthy_str artifactId && truthy_str version)
    then Ok st
    else
      match groupId, artifactId, version with
      | Some groupId, Some artifactId, Some version =>
          let dependency := Maven groupId artifactId version url is_sources in
          Ok {| dependencies := (dependencies st ++ [dependency])%list;
                seen_python_packages := seen_python_packages st |}
      | _, _, _ => Ok st
      end.

(** Body of the loop over one OS/architecture partition of the pip
    extension. *)
Definition pip_spec (base_url : option string) (dep_info : json)
  (st : norm_state) : result norm_state :=
  attributes <- Dict.get dep_info "attributes" (JObj []) ;;
  requirement <- Dict.get attributes "requirement" JNull ;;
  if negb (truthy requirement) then Ok st
  else
    requirement <- str_receiver "strip" requirement ;;
    let requirement_parts :=
      Str.split_whitespace (Str.strip Str.isspace requirement) in
    name_version <- PyList.index requirement_parts 0 ;;
    if Str.contains name_version "==" then
      match Str.split1 "==" name_version with
      | [name; version] =>
          let package_key := (Str.lower name, version) in
          if seen_mem package_key (seen_python_packages st) then Ok st
          else
            let seen := package_key :: seen_python_packages st in
            let url := format_env base_url ++ "/" ++ name ++ "/" ++ version
                       ++ "/" ++ name ++ "-" ++ version ++ ".tar.gz" in
            let dependency := Python name version url in
            Ok {| dependencies := (dependencies st ++ [dependency])%list;
                  seen_python_packages := seen |}
      | _ => Raise ValueError
      end
    else Ok st.

(** Body of the loop over the direct-download Python extension. *)
Definition python_spec (dep_info : json) (st : norm_state)
  : result norm_state :=
  attributes <- Dict.get dep_info "attributes" (JObj []) ;;
  urls <- Dict.get attributes "urls" (JArr []) ;;
  if negb (truthy urls) then Ok st
  else
    url <- subscript0 urls ;;
    release_filename <- Dict.get attributes "release_filename" JNull ;;
    if negb (truthy release_filename) then Ok st
    else
      release_filename <- str_receiver "split" release_filename ;;
      let '(name, version) := parse_release_filename release_filename in
      if negb (truthy_str name && truthy_str version) then Ok st
      else
        match name, version with
        | Some name, Some version =>
            let package_key := (Str.lower name, version) in
            if seen_mem package_key (seen_python_packages st) then Ok st
            else
              let seen := package_key :: seen_python_packages st in
              let dependency := PythonNoPip name version url in
              Ok {| dependencies := (dependencies st ++ [dependency])%list;
                    seen_python_packages := seen |}
        | _, _ => Ok st
        end.

Definition maven_extension_key : string :=
  "@@rules_jvm_external~//:extensions.bzl%maven".
Definition pip_extension_key : string :=
  "@@rules_python~//python/extensions:pip.bzl%pip".
Definition python_extension_key : string :=
  "@@rules_python~//python/extensions:python.bzl%python".

(** Body of the loop over the OS/architecture partitions. *)
Definition pip_partition (base_url : option string) (os_arch_data : json)
  (st : norm_state) : result norm_state :=
  generated_repo_specs <- Dict.get os_arch_data "generatedRepoSpecs" (JObj []) ;;
  specs <- Dict.items generated_repo_specs ;;
  for_each specs (fun item => pip_spec base_url (snd item)) st.

(** [base_url] is the value of the environment variable
    [BAZEL_PYPI_REPOSITORIES], [None] when it is unset. *)
Definition normalize (base_url : option string) (bazel_lock : json)
  : result norm_state :=
  let st := {| dependencies := []; seen_python_packages := [] |} in
  module_extensions <- Dict.get bazel_lock "moduleExtensions" (JObj []) ;;
  (* Maven dependencies *)
  maven_extension <- Dict.get module_extensions maven_extension_key (JObj []) ;;
  general <- Dict.get maven_extension "general" (JObj []) ;;
  generated_repo_specs <- Dict.get general "generatedRepoSpecs" (JObj []) ;;
  specs <- Dict.items generated_repo_specs ;;
  st <- for_each specs (fun item => maven_spec (snd item)) st ;;
  (* Python dependencies installed with pip *)
  python_pip_extension <- Dict.get module_extensions pip_extension_key (JObj []) ;;
  partitions <- Dict.items python_pip_extension ;;
  st <- for_each partitions (fun item => pip_partition base_url (snd item)) st ;;
  (* Python dependencies installed without pip *)
  python_extension <- Dict.get module_extensions python_extension_key (JObj []) ;;
  general <- Dict.get python_extension "general" (JObj []) ;;
  generated_repo_specs <- Dict.get general "generatedRepoSpecs" (JObj []) ;;
  specs <- Dict.items generated_repo_specs ;;
  for_each specs (fun item => python_spec (snd item)) st.

Definition bazel_lock_to_packages (base_url : option string)
  (bazel_lock : json) : result (list dependency) :=
  st <- normalize base_url bazel_lock ;;
  Ok (dependencies st).

(** ** Assembling a document from dependency records *)

Record sbom_lists : Type := {
  packages : list json;
  relationships : list json
}.

(** Body of the loop over [dependencies]. *)
Definition add_dependency (st : sbom_lists) (dep : dependency) : sbom_lists :=
  match dep with
  | Maven groupId artifactId version url is_sources =>
      let spdxid :=
        "SPDXRef-maven-" ++ groupId ++ "-" ++ artifactId ++ "-" ++ version in
      let spdxid := if is_sources then spdxid ++ "-sources" else spdxid in
      let package := JObj [
        ("SPDXID", JStr spdxid);
        ("downloadLocation", JStr url);
        ("filesAnalyzed", JBool false);
        ("name", JStr (groupId ++ ":" ++ artifactId));
        ("versionInfo", JStr version)] in
      {| packages := (packages st ++ [package])%list;
         relationships := (relationships st ++ [JObj [
           ("spdxElementId", JStr "SPDXRef-DOCUMENT");
           ("relatedSpdxElement", JStr spdxid);
           ("relationshipType", JStr "DESCRIBES")]])%list |}
  | Python name version url =>
      let spdxid := "SPDXRef-Package-" ++ name ++ "-" ++ version in
      let package := JObj [
        ("SPDXID", JStr spdxid);
        ("downloadLocation", JStr "NOASSERTION");
        ("filesAnalyzed", JBool false);
        ("name", JStr name);
        ("versionInfo", JStr version);
        ("externalRefs", JArr [
           JObj [("referenceCategory", JStr "PACKAGE-MANAGER");
                 ("referenceType", JStr "purl");
                 ("referenceLocator",
                  JStr ("pkg:pypi/" ++ name ++ "@" ++ version))];
           JObj [("referenceCategory", JStr "OTHER");
                 ("referenceType", JStr "URL");
                 ("referenceLocator", JStr url)]])] in
      {| packages := (packages st ++ [package])%list;
         relationships := (relationships st ++ [JObj [
           ("spdxElementId", JStr "SPDXRef-DOCUMENT");
           ("relatedSpdxElement", JStr spdxid);
           ("relationshipType", JStr "DESCRIBES")]])%list |}
  | PythonNoPip name version url =>
      let spdxid := "SPDXRef-Package-" ++ name ++ "-" ++ version in
      let package := JObj [
        ("SPDXID", JStr spdxid);
        ("downloadLocation", url);
        ("filesAnalyzed", JBool false);
        ("name", JStr name);
        ("versionInfo", JStr version)] in
      {| packages := (packages st ++ [package])%list;
         relationships := (relationships st ++ [JObj [
           ("spdxElementId", JStr "SPDXRef-DOCUMENT");
           ("relatedSpdxElement", JStr spdxid);
           ("relationshipType", JStr "DESCRIBES")]])%list |}
  | Other _ => st
  end.

(** [timestamp] is [datetime.utcnow()] formatted by [strftime]. *)
Definition create_sbom_from_dependencies (timestamp : string)
  (dependencies : list dependency) : json :=
  let st := fold_left add_dependency dependencies
              {| packages := []; relationships := [] |} in
  JObj [
    ("spdxVersion", JStr "SPDX-2.3");
    ("dataLicense", JStr "CC0-1.0");
    ("SPDXID", JStr "SPDXRef-DOCUMENT");
    ("documentNamespace", JStr "http://example.com/spdxdocs/example-document");
    ("name", JStr "Generated SBOM");
    ("creationInfo", JObj [
       ("creators", JArr [JStr "Tool: write_sbom"]);
       ("created", JStr timestamp)]);
    ("packages", JArr (packages st));
    ("relationships", JArr (relationships st))].

(** ** MD5 ([hashlib.md5]), RFC 1321 *)

Module MD5.

Definition add32 (a b : Z) : Z := (a + b) mod 2 ^ 32.

Definition rotl32 (x c : Z) : Z :=
  Z.lor (Z.shiftl x c mod 2 ^ 32) (Z.shiftr x (32 - c)).

Definition not32 (x : Z) : Z := Z.lxor x 0xffffffff.

Definition S : list Z := [
  7; 12; 17; 22; 7; 12; 17; 22; 7; 12; 17; 22; 7; 12; 17; 22;
  5; 9; 14; 20; 5; 9; 14; 20; 5; 9; 14; 20; 5; 9; 14; 20;
  4; 11; 16; 23; 4; 11; 16; 23; 4; 11; 16; 23; 4; 11; 16; 23;
  6; 10; 15; 21; 6; 10; 15; 21; 6; 10; 15; 21; 6; 10; 15; 21].

Definition K : list Z := [
  0xd76aa478; 0xe8c7b756; 0x242070db; 0xc1bdceee;
  0xf57c0faf; 0x4787c62a; 0xa8304613; 0xfd469501;
  0x698098d8; 0x8b44f7af; 0xffff5bb1; 0x895cd7be;
  0x6b901122; 0xfd987193; 0xa679438e; 0x49b40821;
  0xf61e2562; 0xc040b340; 0x265e5a51; 0xe9b6c7aa;
  0xd62f105d; 0x02441453; 0xd8a1e681; 0xe7d3fbc8;
  0x21e1cde6; 0xc33707d6; 0xf4d50d87; 0x455a14ed;
  0xa9e3e905; 0xfcefa3f8; 0x676f02d9; 0x8d2a4c8a;
  0xfffa3942; 0x8771f681; 0x6d9d6122; 0xfde5380c;
  0xa4beea44; 0x4bdecfa9; 0xf6bb4b60; 0xbebfbc70;
  0x289b7ec6; 0xeaa127fa; 0xd4ef3085; 0x04881d05;
  0xd9d4d039; 0xe6db99e5; 0x1fa27cf8; 0xc4ac5665;
  0xf4292244; 0x432aff97; 0xab9423a7; 0xfc93a039;
  0x655b59c3; 0x8f0ccc92; 0xffeff47d; 0x85845dd1;
  0x6fa87e4f; 0xfe2ce6e0; 0xa3014314; 0x4e0811a1;
  0xf7537e82; 0xbd3af235; 0x2ad7d2bb; 0xeb86d391].

(** [n] bytes of [x], least significant first. *)
Fixpoint le_bytes (n : nat) (x : Z) : list Z :=
  match n with
  | O => []
  | Datatypes.S n' => x mod 256 :: le_bytes n' (x / 256)
  end.

Fixpoint le_word (bytes : list Z) : Z :=
  match bytes with
  | [] => 0
  | b :: rest => b + 256 * le_word rest
  end.

(** The message followed by the bit 1, zeros up to 56 modulo 64, and the
    bit length on 8 bytes. *)
Definition pad (msg : list Z) : list Z :=
  let n := Z.of_nat (List.length msg) in
  let zeros := (55 - n) mod 64 in
  (msg ++ [0x80] ++ repeat 0 (Z.to_nat zeros)
     ++ le_bytes 8 ((8 * n) mod 2 ^ 64))%list.

(** The 16 words of the first 64 bytes, and the bytes after them. *)
Fixpoint words (n : nat) (bytes : list Z) : list Z :=
  match n with
  | O => []
  | Datatypes.S n' => le_word (firstn 4 bytes) :: words n' (skipn 4 bytes)
  end.

Definition round (M : list Z) (i : Z) (st : Z * Z * Z * Z) : Z * Z * Z * Z :=
  let '(A, B, C, D) := st in
  let '(F, g) :=
    if i <? 16 then (Z.lor (Z.land B C) (Z.land (not32 B) D), i)
    else if i <? 32 then
      (Z.lor (Z.land D B) (Z.land (not32 D) C), (5 * i + 1) mod 16)
    else if i <? 48 then (Z.lxor B (Z.lxor C D), (3 * i + 5) mod 16)
    else (Z.lxor C (Z.lor B (not32 D)), (7 * i) mod 16) in
  let F := add32 (add32 (add32 F A) (nth (Z.to_nat i) K 0))
                 (nth (Z.to_nat g) M 0) in
  (D, add32 B (rotl32 F (nth (Z.to_nat i) S 0)), B, C).

Definition chunk (h : Z * Z * Z * Z) (M : list Z) : Z * Z * Z * Z :=
  let '(a0, b0, c0, d0) := h in
  let '(A, B, C, D) :=
    fold_left (fun st i => round M (Z.of_nat i) st) (seq 0 64) h in
  (add32 a0 A, add32 b0 B, add32 c0 C, add32 d0 D).

Fixpoint chunks (n : nat) (bytes : list Z) (h : Z * Z * Z * Z)
  : Z * Z * Z * Z :=
  match n with
  | O => h
  | Datatypes.S n' => chunks n' (skipn 64 bytes) (chunk h (words 16 bytes))
  end.

Definition digest (msg : list Z) : list Z :=
  let bytes := pad msg in
  let '(a, b, c, d) :=
    chunks (List.length bytes / 64) bytes
      (0x67452301, 0xefcdab89, 0x98badcfe, 0x10325476) in
  (le_bytes 4 a ++ le_bytes 4 b ++ le_bytes 4 c ++ le_bytes 4 d)%list.

Definition hex_digit (d : Z) : ascii :=
  ascii_of_nat (Z.to_nat (if d <? 10 then 48 + d else 87 + d)).

Fixpoint hex (bytes : list Z) : string :=
  match bytes with
  | [] => EmptyString
  | b :: rest => String (hex_digit (b / 16)) (String (hex_digit (b mod 16)) (hex rest))
  end.

(** [s.encode("utf-8")] *)
Fixpoint utf8 (s : string) : list Z :=
  match s with
  | EmptyString => []
  | String c s' =>
      let n := Z.of_nat (nat_of_ascii c) in
      if n <? 128 then n :: utf8 s'
      else 0xc0 + n / 64 :: 0x80 + n mod 64 :: utf8 s'
  end.

(** [hashlib.md5(); update(s.encode("utf-8")); hexdigest()] *)
Definition hexdigest (s : string) : string := hex (digest (utf8 s)).

End MD5.

(** ** Assembling a document from a manifest *)

(** [for x in v] *)
Definition iterate (v : json) : result (list json) :=
  match v with
  | JArr items => Ok items
  | JObj members => Ok (map (fun item => JStr (fst item)) members)
  | JStr s =>
      Ok (map (fun c => JStr (String c EmptyString)) (list_ascii_of_string s))
  | _ => Raise TypeError
  end.

Definition magic_file_suffix : string := "//file:file".

(** Body of the loop over [package_info["packages"]]; the second component
    of the state is what has been printed on [sys.stderr], line by line.
    [maven_packages] is [JNull] for [None]. *)
Definition manifest_package (maven_packages : json) (pkg : json)
  (st : sbom_lists * list string) : result (sbom_lists * list string) :=
  let '(lists, stderr) := st in
  pkg <- str_receiver "encode" pkg ;;
  let spdxid := "SPDXRef-GooglePackage-" ++ MD5.hexdigest pkg in
  let pi := [
    ("name", JStr pkg);
    ("downloadLocation", JStr "NOASSERTION");
    ("SPDXID", JStr spdxid)] in
  have_maven <-
    (if Str.startswith pkg "@maven//:" then
       Dict.get maven_packages (Str.slice pkg (Some 9) None) JNull
     else if Str.endswith pkg magic_file_suffix then
       Dict.get maven_packages
         (Str.slice pkg (Some 1) (Some (- Str.len magic_file_suffix))) JNull
     else Ok JNull) ;;
  '(pi, stderr) <-
    (if truthy have_maven then
       url <- Dict.getitem have_maven "url" ;;
       Ok (Dict.set pi "downloadLocation" url, stderr)
     else Ok (pi, List.app stderr ["MISSING  " ++ pkg])) ;;
  Ok ({| packages := (packages lists ++ [JObj pi])%list;
         relationships := (relationships lists ++ [JObj [
           ("spdxElementId", JStr "SPDXRef-Package-main");
           ("relatedSpdxElement", JStr spdxid);
           ("relationshipType", JStr "CONTAINS")]])%list |},
      stderr).

(** [created] is [datetime.now(timezone.utc).isoformat()].  The result is
    the document and the lines printed on [sys.stderr]. *)
Definition create_sbom (created : string) (package_info maven_packages : json)
  : result (json * list string) :=
  top_level_target <- Dict.getitem package_info "top_level_target" ;;
  let ret := [
    ("spdxVersion", JStr "SPDX-2.3");
    ("dataLicense", JStr "CC0-1.0");
    ("SPDXID", JStr "SPDXRef-DOCUMENT");
    ("documentNamespace",
     JStr "https://spdx.google/be852459-4c54-4c50-9d2f-0e48890418fc");
    ("name", top_level_target);
    ("creationInfo", JObj [
       ("licenseListVersion", JStr "");
       ("creators", JArr [
          JStr "Tool: github.com/bazelbuild/bazel/tools/compliance/write_sbom";
          JStr "Organization: Google LLC"]);
       ("created", JStr created)])] in
  let st := ({| packages := [];
                relationships := [JObj [
                  ("spdxElementId", JStr "SPDXRef-DOCUMENT");
                  ("relatedSpdxElement", JStr "SPDXRef-Package-main");
                  ("relationshipType", JStr "DESCRIBES")]] |}, []) in
  pkgs <- Dict.getitem package_info "packages" ;;
  pkgs <- iterate pkgs ;;
  '(lists, stderr) <- for_each pkgs (manifest_package maven_packages) st ;;
  let ret := Dict.set ret "packages" (JArr (packages lists)) in
  let ret := Dict.set ret "relationships" (JArr (relationships lists)) in
  Ok (JObj ret, stderr).

(** ** Entry point *)

Module Opts.
Record options : Type := {
  out : string;
  packages_used : option string;
  maven_install : string;
  bazel_lock : string
}.
End Opts.

(** What a run leaves behind: the file written and the lines on stderr. *)
Record run_output : Type := {
  written : string * json;
  diagnostics : list string
}.

(** The module binds no name [maven_install_to_packages]: it has no such
    [def], and its imports are [argparse], [datetime], [hashlib], [json],
    [sys] and [os].  Evaluating the name raises [NameError]. *)
Definition maven_install_to_packages : result (json -> result json) :=
  Raise (NameError "maven_install_to_packages").

(** [open(path)] of a name that may be [None], then [json.loads]. *)
Definition load (files : string -> result json) (path : option string)
  : result json :=
  match path with
  | Some p => files p
  | None => Raise TypeError
  end.

(** [now] is the formatted current time, [getenv] the value of
    [BAZEL_PYPI_REPOSITORIES], and [files p] what opening, reading and
    parsing the file [p] gives. *)
Definition main (now : string) (getenv : option string)
  (files : string -> result json) (opts : Opts.options) : result run_output :=
  '(sbom, stderr) <-
    (if negb (String.eqb (Opts.bazel_lock opts) "") then
       bazel_lock <- load files (Some (Opts.bazel_lock opts)) ;;
       dependencies <- bazel_lock_to_packages getenv bazel_lock ;;
       Ok (create_sbom_from_dependencies now dependencies, [])
     else
       package_info <- load files (Opts.packages_used opts) ;;
       maven_packages <-
         (if negb (String.eqb (Opts.maven_install opts) "") then
            maven_install <- load files (Some (Opts.maven_install opts)) ;;
            to_packages <- maven_install_to_packages ;;
            to_packages maven_install
          else Ok JNull) ;;
       create_sbom now package_info maven_packages) ;;
  Ok {| written := (Opts.out opts, sbom); diagnostics := stderr |}.

(** * Vocabulary of the properties *)

(** ** Occurrences in strings *)

(** [sub] occurs in [s]. *)
Definition Occurs (sub s : string) : Prop :=
  exists pre post, s = pre ++ sub ++ post.

(** The leftmost occurrence of [sub] in [s] starts after [pre] and is
    followed by [post]. *)
Definition FirstAt (sub s pre post : string) : Prop :=
  s = pre ++ sub ++ post /\
  forall pre' post', s = pre' ++ sub ++ post' ->
    (String.length pre <= String.length pre')%nat.

(** ** Maven URLs *)

(** The absence marker of the Maven URL parser. *)
Definition absent : maven_info := (None, None, None, false).

(** [path] is what follows the marker the parser settles on: the leftmost
    ["/maven2/"], or the leftmost ["/repository/"] of a URL without
    ["/maven2/"]. *)
Definition Marked (url path : string) : Prop :=
  (exists pre, FirstAt "/maven2/" url pre path) \/
  (~ Occurs "/maven2/" url /\ exists pre, FirstAt "/repository/" url pre path).

(** The path segments the parser works on. *)
Definition segments_of (path : string) : list string :=
  Str.split "/" (Str.strip (Ascii.eqb "/") path).

(** ** Reading a document *)

(** [v[key]] when [v] is a dict that has the key. *)
Definition field (v : json) (key : string) : option json :=
  match v with
  | JObj members => Dict.lookup key members
  | _ => None
  end.

(** The array stored under [key] of a document. *)
Definition array (doc : json) (key : string) : list json :=
  match field doc key with
  | Some (JArr items) => items
  | _ => []
  end.

(** The SPDXIDs of the packages array. *)
Definition package_ids (doc : json) : list (option json) :=
  map (fun p => field p "SPDXID") (array doc "packages").

(** The identifiers the relationships array mentions, sources and targets. *)
Definition relationship_ids (doc : json) : list (option json) :=
  flat_map (fun r => [field r "spdxElementId"; field r "relatedSpdxElement"])
    (array doc "relationships").

(** Every identifier of a relationship, the document's own apart, is the
    SPDXID of a package. *)
Definition closed (doc : json) : Prop :=
  forall id, In (Some id) (relationship_ids doc) ->
    Some id <> field doc "SPDXID" -> In (Some id) (package_ids doc).

(** ** Records and the packages they yield *)

(** The packages a single record contributes. *)
Definition emitted (dep : dependency) : list json :=
  packages (add_dependency {| packages := []; relationships := [] |} dep).

(** The URL a record carries. *)
Definition record_url (dep : dependency) : option json :=
  match dep with
  | Maven _ _ _ url _ => Some (JStr url)
  | Python _ _ url => Some (JStr url)
  | PythonNoPip _ _ url => Some url
  | Other _ => None
  end.

(** The invariant of the loop over the records: every relationship goes
    from the document to the SPDXID of a package already appended. *)
Definition linked (st : sbom_lists) : Prop :=
  forall r, In r (relationships st) ->
    field r "spdxElementId" = Some (JStr "SPDXRef-DOCUMENT")
    /\ exists p, In p (packages st)
                 /\ field p "SPDXID" = field r "relatedSpdxElement".

(** ** Manifest mode *)

Definition document_id : json := JStr "SPDXRef-DOCUMENT".
Definition main_package_id : json := JStr "SPDXRef-Package-main".

(** The invariant of the loop over the manifest: a relationship is the one
    from the document to the main package, or goes from the main package to
    the SPDXID of a package already appended; and every SPDXID is a
    prefixed digest. *)
Definition rooted (st : sbom_lists * list string) : Prop :=
  (forall r, In r (relationships (fst st)) ->
     (field r "spdxElementId" = Some document_id
      /\ field r "relatedSpdxElement" = Some main_package_id)
     \/ (field r "spdxElementId" = Some main_package_id
         /\ exists p, In p (packages (fst st))
                      /\ field p "SPDXID" = field r "relatedSpdxElement"))
  /\ (forall p, In p (packages (fst st)) ->
        exists pkg, field p "SPDXID"
                    = Some (JStr ("SPDXRef-GooglePackage-" ++ MD5.hexdigest pkg))).

(** A manifest with one package, which is not a Maven reference. *)
Definition manifest_zlib : json :=
  JObj [("top_level_target", JStr "//app:server");
        ("packages", JArr [JStr "@zlib//:zlib"])].

(** A reference that the manifest assembler looks up in [maven_packages]. *)
Definition maven_shaped (pkg : string) : bool :=
  Str.startswith pkg "@maven//:" || Str.endswith pkg magic_file_suffix.

(** A manifest with a Maven reference after a plain one. *)
Definition manifest_maven : json :=
  JObj [("top_level_target", JStr "//app:server");
        ("packages", JArr [JStr "@zlib//:zlib";
                           JStr "@maven//:org_apache_commons_commons_lang3"])].

(** A file system that holds that manifest and nothing else. *)
Definition one_file (p : string) : result json :=
  if String.eqb p "packages_used.json" then Ok manifest_maven
  else Raise OSError.

(** A file system that holds a manifest and an empty Maven lock file. *)
Definition two_files (p : string) : result json :=
  if String.eqb p "packages_used.json" then Ok manifest_zlib
  else if String.eqb p "maven_install.json" then Ok (JObj [])
  else Raise OSError.

(** ** Python records and their deduplication *)

Definition is_python (dep : dependency) : bool :=
  match dep with
  | Python _ _ _ | PythonNoPip _ _ _ => true
  | _ => false
  end.

(** The Python records of a list, both variants, in order. *)
Definition python_records (deps : list dependency) : list dependency :=
  filter is_python deps.

(** The deduplication key of a Python record. *)
Definition python_key (dep : dependency) : package_key :=
  match dep with
  | Python name version _ | PythonNoPip name version _ =>
      (Str.lower name, version)
  | _ => (EmptyString, EmptyString)
  end.

(** Keeps of each key the first record that has it. *)
Fixpoint first_occurrences (cs : list dependency) : list dependency :=
  match cs with
  | [] => []
  | c :: rest =>
      c :: filter (fun d => negb (key_eqb (python_key d) (python_key c)))
             (first_occurrences rest)
  end.

(** The state the normalizer starts from. *)
Definition empty_state : norm_state :=
  {| dependencies := []; seen_python_packages := [] |}.

(** What a lock entry yields when it is the first one processed. *)
Definition candidates (body : json -> norm_state -> result norm_state)
  (dep_info : json) : list dependency :=
  match body dep_info empty_state with
  | Ok st => dependencies st
  | Raise _ => []
  end.

(** Navigation of the lock file, as the [get] chains do it. *)
Definition member (d : json) (key : string) : json :=
  match Dict.get d key (JObj []) with
  | Ok v => v
  | Raise _ => JObj []
  end.

(** The values of a dict, in order. *)
Definition entries (d : json) : list json :=
  match Dict.items d with
  | Ok members => map snd members
  | Raise _ => []
  end.

(** The Python entries of a lock file in traversal order: the pip
    partitions one after the other, then the direct downloads; each entry
    stands for the record it would yield on its own. *)
Definition python_candidates (base_url : option string) (bazel_lock : json)
  : list dependency :=
  let module_extensions := member bazel_lock "moduleExtensions" in
  (flat_map
     (fun os_arch_data =>
        flat_map (candidates (pip_spec base_url))
          (entries (member os_arch_data "generatedRepoSpecs")))
     (entries (member module_extensions pip_extension_key))
   ++ flat_map (candidates python_spec)
        (entries (member (member (member module_extensions
                                    python_extension_key) "general")
                    "generatedRepoSpecs")))%list.

(** Appending a record unless its key has been seen. *)
Definition offer (st : norm_state) (dep : dependency) : norm_state :=
  if seen_mem (python_key dep) (seen_python_packages st) then st
  else {| dependencies := (dependencies st ++ [dep])%list;
          seen_python_packages := python_key dep :: seen_python_packages st |}.

(** The loop's own deduplication, with its set of seen keys. *)
Fixpoint dedup_from (seen : list package_key) (cs : list dependency)
  : list dependency :=
  match cs with
  | [] => []
  | c :: rest =>
      if seen_mem (python_key c) seen then dedup_from seen rest
      else c :: dedup_from (python_key c :: seen) rest
  end.

(** The key of [d] is not among [seen]. *)
Definition unseen (seen : list package_key) (d : dependency) : bool :=
  negb (seen_mem (python_key d) seen).

(** A lock file where one package comes three times: from two pip
    partitions, with different capitalisation, and as a direct download. *)
Definition lock_duplicates : json :=
  JObj [("moduleExtensions", JObj [
    (pip_extension_key, JObj [
       ("linux_x86_64", JObj [("generatedRepoSpecs", JObj [
          ("pip_39_requests", JObj [("attributes", JObj [
             ("requirement", JStr "Requests==2.31.0 --hash=sha256:58cd2187")])])])]);
       ("osx_aarch64", JObj [("generatedRepoSpecs", JObj [
          ("pip_39_requests", JObj [("attributes", JObj [
             ("requirement", JStr "requests==2.31.0")])])])])]);
    (python_extension_key, JObj [("general", JObj [("generatedRepoSpecs", JObj [
       ("requests", JObj [("attributes", JObj [
          ("urls", JArr [JStr "https://files.example.org/requests-2.31.0.tar.gz"]);
          ("release_filename", JStr "2.31.0/requests.tar.gz")])]);
       ("typing_extensions", JObj [("attributes", JObj [
          ("urls", JArr [JStr "https://files.example.org/typing_extensions-4.9.0.tar.gz"]);
          ("release_filename", JStr "4.9.0/typing_extensions.tar.gz")])])])])])])].

(** ** The shape of a lock file that follows the schema *)

Definition is_str (v : json) : bool :=
  match v with JStr _ => true | _ => false end.

(** [d] is a dict, and what it holds under [key], if anything, has the
    given shape. *)
Definition dict_with (key : string) (shape : json -> bool) (d : json) : bool :=
  match d with
  | JObj members =>
      match Dict.lookup key members with
      | Some v => shape v
      | None => true
      end
  | _ => false
  end.

(** [d] is a dict whose values all have the given shape. *)
Definition dict_of (shape : json -> bool) (d : json) : bool :=
  match d with
  | JObj members => forallb (fun item => shape (snd item)) members
  | _ => false
  end.

(** A list of strings. *)
Definition str_list (v : json) : bool :=
  match v with
  | JArr items => forallb is_str items
  | _ => false
  end.

(** A string or [None]. *)
Definition optional_str (v : json) : bool :=
  match v with
  | JNull | JStr _ => true
  | _ => false
  end.

(** The string holds a character that is not whitespace. *)
Definition has_token (s : string) : bool :=
  match Str.split_whitespace (Str.strip Str.isspace s) with
  | [] => false
  | _ :: _ => true
  end.

(** [None], the empty string, or a string with a token. *)
Definition requirement_shape (v : json) : bool :=
  match v with
  | JNull => true
  | JStr s => String.eqb s "" || has_token s
  | _ => false
  end.

(** The repo specs of the three extensions. *)
Definition maven_entry_shape : json -> bool :=
  dict_with "attributes" (dict_with "urls" str_list).

Definition pip_entry_shape : json -> bool :=
  dict_with "attributes" (dict_with "requirement" requirement_shape).

Definition python_entry_shape : json -> bool :=
  dict_with "attributes"
    (fun a => dict_with "urls" str_list a
              && dict_with "release_filename" optional_str a).

(** A container of repo specs. *)
Definition specs_shape (entry : json -> bool) : json -> bool :=
  dict_with "generatedRepoSpecs" (dict_of entry).

(** The lock file as a whole. *)
Definition lock_shape : json -> bool :=
  dict_with "moduleExtensions"
    (fun exts =>
       dict_with maven_extension_key
         (dict_with "general" (specs_shape maven_entry_shape)) exts
       && dict_with pip_extension_key
            (dict_of (specs_shape pip_entry_shape)) exts
       && dict_with python_extension_key
            (dict_with "general" (specs_shape python_entry_shape)) exts).

(** A repo spec with the given attributes. *)
Definition repo_spec (attrs : list (string * json)) : json :=
  JObj [("attributes", JObj attrs)].

(** A lock file with one good and several deficient entries per
    extension. *)
Definition lock_mixed : json :=
  JObj [("lockFileVersion", JInt 3); ("moduleExtensions", JObj [
    (maven_extension_key, JObj [("general", JObj [("generatedRepoSpecs", JObj [
       ("com_google_guava_guava", JObj [("attributes", JObj [
          ("urls", JArr [JStr "https://repo1.maven.org/maven2/com/google/guava/guava/32.1.2/guava-32.1.2.jar"])])]);
       ("no_urls", JObj [("attributes", JObj [("sha256", JStr "00")])]);
       ("short_url", JObj [("attributes", JObj [
          ("urls", JArr [JStr "https://repo1.maven.org/maven2/guava.jar"])])])])])]);
    (pip_extension_key, JObj [("linux_x86_64", JObj [("generatedRepoSpecs", JObj [
       ("pip_requests", JObj [("attributes", JObj [
          ("requirement", JStr "requests==2.31.0")])]);
       ("pip_no_requirement", JObj [("attributes", JObj [])]);
       ("pip_unpinned", JObj [("attributes", JObj [
          ("requirement", JStr "urllib3>=2")])])])])]);
    (python_extension_key, JObj [("general", JObj [("generatedRepoSpecs", JObj [
       ("six", JObj [("attributes", JObj [
          ("urls", JArr [JStr "https://files.example.org/six-1.16.0.tar.gz"]);
          ("release_filename", JStr "1.16.0/six.tar.gz")])]);
       ("no_release", JObj [("attributes", JObj [
          ("urls", JArr [JStr "https://files.example.org/a.tar.gz"])])]);
       ("no_slash", JObj [("attributes", JObj [
          ("urls", JArr [JStr "https://files.example.org/b.tar.gz"]);
          ("release_filename", JStr "b.tar.gz")])])])])])])].

(** ** Records and the relationships they yield *)

(** The record has one of the three types the assembler knows. *)
Definition recognized (dep : dependency) : bool :=
  match dep with
  | Other _ => false
  | _ => true
  end.

(** The relationships a single record contributes. *)
Definition emitted_relationships (dep : dependency) : list json :=
  relationships (add_dependency {| packages := []; relationships := [] |} dep).

(** ** What the normalizer returns *)

(** The Maven entries of a lock file in traversal order; each entry stands
    for the record it would yield on its own. *)
Definition maven_candidates (bazel_lock : json) : list dependency :=
  flat_map (candidates maven_spec)
    (entries (member (member (member (member bazel_lock "moduleExtensions")
                                maven_extension_key) "general")
                "generatedRepoSpecs")).

(** What the normalizer guarantees of a record it returns. *)
Definition well_formed (base_url : option string) (dep : dependency) : Prop :=
  match dep with
  | Maven groupId artifactId version url is_sources =>
      groupId <> "" /\ artifactId <> "" /\ version <> ""
      /\ extract_maven_info_from_url url
         = Ok (Some groupId, Some artifactId, Some version, is_sources)
  | Python name version url =>
      url = format_env base_url ++ "/" ++ name ++ "/" ++ version
            ++ "/" ++ name ++ "-" ++ version ++ ".tar.gz"
  | PythonNoPip name version _ =>
      name <> "" /\ version <> ""
      /\ Str.has_char "_" name = false /\ Str.has_char "/" version = false
  | Other _ => False
  end.

(** ** The entries of a manifest document *)

(** The identifier of the package of a reference. *)
Definition spdxid_of (pkg : string) : string :=
  "SPDXRef-GooglePackage-" ++ MD5.hexdigest pkg.

(** The package entry of a reference, with its download location. *)
Definition package_entry (pkg : string) (location : json) : json :=
  JObj [("name", JStr pkg);
        ("downloadLocation", location);
        ("SPDXID", JStr (spdxid_of pkg))].

(** The relationship from the main package to the package of a
    reference. *)
Definition contains_relationship (pkg : string) : json :=
  JObj [("spdxElementId", main_package_id);
        ("relatedSpdxElement", JStr (spdxid_of pkg));
        ("relationshipType", JStr "CONTAINS")].

(** The relationship from the document to the main package. *)
Definition describes_main : json :=
  JObj [("spdxElementId", document_id);
        ("relatedSpdxElement", main_package_id);
        ("relationshipType", JStr "DESCRIBES")].

(** The lists after a package entry for [pkg] is appended. *)
Definition appended (st : sbom_lists * list string) (pkg : string)
  (location : json) : sbom_lists :=
  {| packages := (packages (fst st) ++ [package_entry pkg location])%list;
     relationships :=
       (relationships (fst st) ++ [contains_relationship pkg])%list |}.

(** The notice printed for an unresolved reference. *)
Definition missing_notice (pkg : string) : string := "MISSING  " ++ pkg.

(** A lowercase hexadecimal digit. *)
Definition is_hex (c : ascii) : bool :=
  let n := Z.of_nat (nat_of_ascii c) in
  ((48 <=? n) && (n <=? 57)) || ((97 <=? n) && (n <=? 102)).

Fixpoint all_chars (p : ascii -> bool) (s : string) : bool :=
  match s with
  | EmptyString => true
  | String c s' => p c && all_chars p s'
  end.

(** A lookup table with one usable entry, one entry without URL, and the
    manifest references that go with them. *)
Definition maven_table : list (string * json) :=
  [("com_google_guava_guava",
    JObj [("url", JStr "https://repo1.maven.org/maven2/com/google/guava/guava/32.1.2/guava-32.1.2.jar")]);
   ("org_slf4j_slf4j_api", JObj [("sha256", JStr "00")])].

(** A manifest of two references, neither of a Maven form. *)
Definition manifest_plain : json :=
  JObj [("top_level_target", JStr "//app:server");
        ("packages", JArr (map JStr ["@zlib//:zlib"; "@abseil-cpp//absl/base"]))].

(** A file system that holds that manifest and nothing else. *)
Definition plain_file (p : string) : result json :=
  if String.eqb p "packages_used.json" then Ok manifest_plain
  else Raise OSError.

(** A file system that holds a lock file and nothing else. *)
Definition lock_file (p : string) : result json :=
  if String.eqb p "MODULE.bazel.lock" then Ok lock_mixed
  else Raise OSError.

(** * Properties *)

(** ** Facts about strings *)

Section StringFacts.

Lemma append_assoc (a b c : string) : (a ++ b) ++ c = a ++ (b ++ c).
Proof. induction a as [|x a IH]; simpl; [reflexivity | now rewrite IH]. Qed.

Lemma append_nil_r (a : string) : a ++ "" = a.
Proof. induction a as [|x a IH]; simpl; [reflexivity | now rewrite IH]. Qed.

Lemma length_append (a b : string) :
  String.length (a ++ b) = (String.length a + String.length b)%nat.
Proof. induction a as [|x a IH]; simpl; [reflexivity | now rewrite IH]. Qed.

Lemma drop_append (a b : string) : Str.drop (String.length a) (a ++ b) = b.
Proof. induction a as [|x a IH]; simpl; [now destruct b | exact IH]. Qed.

Lemma take_append (a b : string) : Str.take (String.length a) (a ++ b) = a.
Proof.
  induction a as [|x a IH]; simpl; [now destruct b | now rewrite IH].
Qed.

Lemma take_length (a : string) : Str.take (String.length a) a = a.
Proof. induction a as [|x a IH]; simpl; [reflexivity | now rewrite IH]. Qed.



Lemma startswith_append (p s : string) : Str.startswith (p ++ s) p = true.
Proof.
  induction p as [|x p IH]; simpl; [now destruct s|].
  now rewrite Ascii.eqb_refl, IH.
Qed.

Lemma startswith_inv (s p : string) :
  Str.startswith s p = true -> exists post, s = p ++ post.
Proof.
  revert s; induction p as [|x p IH]; intros s H.
  - exists s; reflexivity.
  - destruct s as [|y s]; simpl in H; [discriminate|].
    apply andb_true_iff in H as [Hxy Hp].
    apply Ascii.eqb_eq in Hxy; subst y.
    destruct (IH _ Hp) as [post ->]. now exists post.
Qed.

Lemma startswith_occurs (s p : string) :
  Str.startswith s p = true -> Occurs p s.
Proof.
  intros H; destruct (startswith_inv _ _ H) as [post ->].
  now exists "", post.
Qed.

Lemma occurs_cons (sub s : string) (c : ascii) :
  Occurs sub s -> Occurs sub (String c s).
Proof. intros (pre & post & ->). now exists (String c pre), post. Qed.

(** [find] answers -1 exactly on the strings where [sub] does not occur. *)
Lemma find_from_absent (sub s : string) (i : Z) :
  ~ Occurs sub s -> Str.find_from s sub i = -1.
Proof.
  revert i; induction s as [|c s IH]; intros i H; cbn [Str.find_from].
  - destruct (Str.startswith "" sub) eqn:E; [|reflexivity].
    exfalso; apply H; now apply startswith_occurs.
  - destruct (Str.startswith (String c s) sub) eqn:E.
    + exfalso; apply H; now apply startswith_occurs.
    + apply IH. intros Ho; apply H. now apply occurs_cons.
Qed.

Lemma find_from_first (sub : string) (pre post : string) :
  forall s i, FirstAt sub s pre post ->
    Str.find_from s sub i = i + Str.len pre.
Proof.
  unfold Str.len.
  induction pre as [|c pre IH]; intros s i [Hs Hmin].
  - subst s; simpl (_ ++ _).
    assert (E : Str.startswith (sub ++ post) sub = true)
      by apply startswith_append.
    destruct (sub ++ post); cbn [Str.find_from]; rewrite E; simpl; lia.
  - subst s; simpl (_ ++ _).
    cbn [Str.find_from].
    destruct (Str.startswith (String c (pre ++ sub ++ post)) sub) eqn:E.
    + destruct (startswith_inv _ _ E) as [post' Hp].
      specialize (Hmin "" post' Hp). simpl in Hmin. lia.
    + rewrite (IH (pre ++ sub ++ post) (i + 1)).
      * simpl String.length. lia.
      * split; [reflexivity|].
        intros pre' post' Hp.
        specialize (Hmin (String c pre') post').
        simpl in Hmin. rewrite Hp in Hmin.
        specialize (Hmin eq_refl). lia.
Qed.

Lemma find_from_range (sub s : string) (i : Z) :
  Str.find_from s sub i = -1 \/ i <= Str.find_from s sub i.
Proof.
  revert i; induction s as [|c s IH]; intros i; cbn [Str.find_from].
  - destruct (Str.startswith "" sub); [right; lia | now left].
  - destruct (Str.startswith (String c s) sub); [right; lia|].
    destruct (IH (i + 1)) as [->|H]; [now left | right; lia].
Qed.

Lemma find_absent (sub s : string) : ~ Occurs sub s -> Str.find s sub = -1.
Proof. apply find_from_absent. Qed.

Lemma find_first (sub s pre post : string) :
  FirstAt sub s pre post -> Str.find s sub = Str.len pre.
Proof. intros H. unfold Str.find. now rewrite (find_from_first _ _ _ _ 0 H). Qed.

Lemma find_range (sub s : string) :
  Str.find s sub = -1 \/ 0 <= Str.find s sub.
Proof. apply find_from_range. Qed.

(** Slices that cut a concatenation at the seam. *)
Lemma slice_from_append (a b : string) :
  Str.slice (a ++ b) (Some (Str.len a)) None = b.
Proof.
  unfold Str.slice, Str.clip, Str.len.
  rewrite length_append.
  destruct (Z.ltb_spec (Z.of_nat (String.length a)) 0); [lia|].
  rewrite Z.min_l by lia.
  rewrite Nat2Z.id, drop_append.
  replace (Z.to_nat _) with (String.length b) by lia.
  apply take_length.
Qed.

Lemma slice_to_append (a b : string) :
  Str.slice (a ++ b) None (Some (Str.len a)) = a.
Proof.
  unfold Str.slice, Str.clip, Str.len.
  rewrite length_append.
  destruct (Z.ltb_spec (Z.of_nat (String.length a)) 0); [lia|].
  rewrite Z.min_l by lia.
  rewrite Z.sub_0_r, Nat2Z.id. simpl Str.drop.
  apply take_append.
Qed.

Lemma slice_drop_suffix (a b : string) :
  b <> "" -> Str.slice (a ++ b) None (Some (- Str.len b)) = a.
Proof.
  intros Hb.
  assert (0 < String.length b)%nat by (destruct b; simpl; [congruence | lia]).
  unfold Str.slice, Str.clip, Str.len.
  rewrite length_append.
  destruct (Z.ltb_spec (- Z.of_nat (String.length b)) 0); [|lia].
  rewrite Z.max_r by lia. simpl Str.drop.
  replace (Z.to_nat _) with (String.length a) by lia.
  apply take_append.
Qed.

Lemma find_from_least (sub pre post : string) :
  forall s i, s = pre ++ sub ++ post ->
    i <= Str.find_from s sub i <= i + Str.len pre.
Proof.
  unfold Str.len.
  induction pre as [|c pre IH]; intros s i ->; simpl (_ ++ _).
  - assert (E : Str.startswith (sub ++ post) sub = true)
      by apply startswith_append.
    destruct (sub ++ post); cbn [Str.find_from]; rewrite E; simpl; lia.
  - cbn [Str.find_from].
    destruct (Str.startswith _ sub); simpl String.length; [lia|].
    specialize (IH _ (i + 1) eq_refl). lia.
Qed.

(** A position computed by [find] is the leftmost occurrence. *)
Lemma firstAt_of_find (sub s pre post : string) :
  s = pre ++ sub ++ post -> Str.find s sub = Str.len pre ->
  FirstAt sub s pre post.
Proof.
  intros Hs Hf. split; [exact Hs|].
  intros pre' post' Hs'.
  pose proof (find_from_least sub pre' post' s 0 Hs') as H.
  unfold Str.find in Hf. rewrite Hf in H. unfold Str.len in H. lia.
Qed.

Lemma startswith_nil (s : string) : Str.startswith s "" = true.
Proof. now destruct s. Qed.

Lemma find_from_char (c : ascii) (v rest : string) (i : Z) :
  Str.has_char c v = false ->
  Str.find_from (v ++ String c rest) (String c "") i = i + Str.len v.
Proof.
  unfold Str.len. revert i.
  induction v as [|a v IH]; intros i H; simpl (_ ++ _);
    cbn [Str.find_from Str.startswith].
  - rewrite Ascii.eqb_refl, startswith_nil. simpl. lia.
  - simpl in H. apply orb_false_iff in H as [Hac Hv].
    rewrite Ascii.eqb_sym, Hac. simpl andb. cbv iota.
    rewrite (IH (i + 1) Hv). simpl String.length. lia.
Qed.

Lemma find_char (c : ascii) (v rest : string) :
  Str.has_char c v = false ->
  Str.find (v ++ String c rest) (String c "") = Str.len v.
Proof. intros H. unfold Str.find. now rewrite find_from_char. Qed.

Lemma find_char_absent (c : ascii) (s : string) :
  Str.has_char c s = false -> Str.find s (String c "") = -1.
Proof.
  unfold Str.find. generalize 0 as i.
  induction s as [|a s IH]; intros i H; cbn [Str.find_from Str.startswith].
  - reflexivity.
  - simpl in H. apply orb_false_iff in H as [Hac Hs].
    rewrite Ascii.eqb_sym, Hac. simpl. now apply IH.
Qed.


Lemma endswith_append (a b : string) : Str.endswith (a ++ b) b = true.
Proof.
  unfold Str.endswith.
  replace (Str.len (a ++ b) - Str.len b) with (Str.len a)
    by (unfold Str.len; rewrite length_append; lia).
  rewrite slice_from_append, String.eqb_refl, andb_true_r.
  unfold Str.len; rewrite length_append. apply Z.leb_le. lia.
Qed.


Lemma replace_has_char (a b : ascii) (s : string) :
  a <> b -> Str.has_char a (Str.replace a b s) = false.
Proof.
  intros Hab. induction s as [|c s IH]; simpl; [reflexivity|].
  rewrite IH, orb_false_r.
  destruct (Ascii.eqb_spec c a) as [->|Hc].
  - apply Ascii.eqb_neq. congruence.
  - now apply Ascii.eqb_neq.
Qed.



End StringFacts.

(** ** The release-filename parser *)

Lemma parse_release_filename_absent (s : string) :
  Str.has_char "/" s = false -> parse_release_filename s = (None, None).
Proof.
  intros Hs. unfold parse_release_filename, Str.split1.
  rewrite (find_char_absent _ _ Hs). reflexivity.
Qed.

(** C8: on ["<version>/<name>.tar.gz"], where the version is the part
    before the first slash, [parse_release_filename] returns the name with
    its underscores rewritten to hyphens, and the version; on a string
    without a slash it returns [(None, None)]. *)
Theorem parse_release_filename_spec :
  (forall version name : string,
      Str.has_char "/" version = false ->
      parse_release_filename (version ++ "/" ++ name ++ ".tar.gz")
      = (Some (Str.replace "_" "-" name), Some version))
  /\ (forall s : string,
      Str.has_char "/" s = false ->
      parse_release_filename s = (None, None)).
Proof.
  split.
  - intros version name Hv.
    unfold parse_release_filename, Str.split1.
    change (version ++ "/" ++ name ++ ".tar.gz")
      with (version ++ String "/" (name ++ ".tar.gz")).
    rewrite (find_char _ _ _ Hv).
    destruct (Z.ltb_spec (Str.len version) 0);
      [unfold Str.len in *; lia|].
    rewrite slice_to_append.
    change (version ++ String "/" (name ++ ".tar.gz"))
      with (version ++ "/" ++ (name ++ ".tar.gz")).
    rewrite <- append_assoc.
    replace (Str.len version + Str.len "/") with (Str.len (version ++ "/"))
      by (unfold Str.len; rewrite length_append; simpl; lia).
    rewrite slice_from_append, endswith_append.
    rewrite slice_drop_suffix by discriminate.
    reflexivity.
  - exact parse_release_filename_absent.
Qed.

Lemma parse_release_filename_spec_witness :
  parse_release_filename ("2.31.0" ++ "/" ++ "typing_extensions" ++ ".tar.gz")
  = (Some "typing-extensions", Some "2.31.0")
  /\ parse_release_filename "requests.tar.gz" = (None, None).
Proof.
  split.
  - apply (proj1 parse_release_filename_spec "2.31.0" "typing_extensions").
    reflexivity.
  - apply (proj2 parse_release_filename_spec "requests.tar.gz").
    reflexivity.
Defined.

(** ** The Maven URL parser *)

Section MavenUrl.

Lemma find_base_unmarked (url : string) :
  ~ Occurs "/maven2/" url -> ~ Occurs "/repository/" url ->
  find_base url ["/maven2/"; "/repository/"] (-1) = -1.
Proof.
  intros H1 H2. cbn [find_base].
  rewrite (find_absent _ _ H1), (find_absent _ _ H2). reflexivity.
Qed.

Lemma find_base_first (sub url pre path : string) (rest : list string) :
  FirstAt sub url pre path ->
  find_base url (sub :: rest) (-1) = Str.len (pre ++ sub)
  /\ Str.slice url (Some (Str.len (pre ++ sub))) None = path.
Proof.
  intros H. cbn [find_base]. rewrite (find_first _ _ _ _ H).
  destruct H as [-> _].
  destruct (Z.leb_spec 0 (Str.len pre)); [|unfold Str.len in *; lia].
  split.
  - unfold Str.len. rewrite length_append. lia.
  - rewrite <- append_assoc. apply slice_from_append.
Qed.

Lemma find_base_marked (url path : string) :
  Marked url path ->
  exists idx, find_base url ["/maven2/"; "/repository/"] (-1) = idx /\ 0 <= idx
              /\ Str.slice url (Some idx) None = path.
Proof.
  intros [[pre H] | [Hno [pre H]]].
  - destruct (find_base_first _ _ _ _ ["/repository/"] H) as [E1 E2].
    exists (Str.len (pre ++ "/maven2/")).
    repeat split; auto. unfold Str.len; lia.
  - destruct (find_base_first _ _ _ _ [] H) as [E1 E2].
    exists (Str.len (pre ++ "/repository/")).
    cbn [find_base] in *.
    rewrite (find_absent _ _ Hno). change (0 <=? -1) with false. cbv iota.
    repeat split; auto. unfold Str.len; lia.
Qed.

Lemma find_base_range (url : string) :
  find_base url ["/maven2/"; "/repository/"] (-1) = -1
  \/ 0 <= find_base url ["/maven2/"; "/repository/"] (-1).
Proof.
  cbn [find_base].
  destruct (find_range "/maven2/" url) as [E|E].
  - rewrite E. change (0 <=? -1) with false. cbv iota.
    destruct (find_range "/repository/" url) as [E'|E'].
    + rewrite E'. now left.
    + right. destruct (Z.leb_spec 0 (Str.find url "/repository/")); [|lia].
      unfold Str.len; lia.
  - right. destruct (Z.leb_spec 0 (Str.find url "/maven2/")); [|lia].
    unfold Str.len; lia.
Qed.

Lemma index_last3 {A} (gs : list A) (a v f : A) :
  PyList.index (gs ++ [a; v; f])%list (-1) = Ok f
  /\ PyList.index (gs ++ [a; v; f])%list (-2) = Ok v
  /\ PyList.index (gs ++ [a; v; f])%list (-3) = Ok a
  /\ PyList.slice_to (gs ++ [a; v; f])%list (-3) = gs.
Proof.
  unfold PyList.index, PyList.slice_to, PyList.len, Str.clip.
  rewrite length_app. simpl List.length.
  repeat split.
  - change (-1 <? 0) with true. cbv iota.
    destruct (Z.ltb_spec (Z.of_nat (List.length gs + 3) + -1) 0); [lia|].
    replace (Z.to_nat _) with (List.length gs + 2)%nat by lia.
    rewrite nth_error_app2 by lia.
    replace (_ - _)%nat with 2%nat by lia. reflexivity.
  - change (-2 <? 0) with true. cbv iota.
    destruct (Z.ltb_spec (Z.of_nat (List.length gs + 3) + -2) 0); [lia|].
    replace (Z.to_nat _) with (List.length gs + 1)%nat by lia.
    rewrite nth_error_app2 by lia.
    replace (_ - _)%nat with 1%nat by lia. reflexivity.
  - change (-3 <? 0) with true. cbv iota.
    destruct (Z.ltb_spec (Z.of_nat (List.length gs + 3) + -3) 0); [lia|].
    replace (Z.to_nat _) with (List.length gs + 0)%nat by lia.
    rewrite nth_error_app2 by lia.
    replace (_ - _)%nat with 0%nat by lia. reflexivity.
  - change (-3 <? 0) with true. cbv iota.
    replace (Z.to_nat _) with (List.length gs + 0)%nat by lia.
    rewrite firstn_app_2. simpl. apply app_nil_r.
Qed.

Lemma last3 {A} (l : list A) :
  (4 <= List.length l)%nat ->
  exists gs a v f, l = (gs ++ [a; v; f])%list /\ gs <> [].
Proof.
  intros H.
  destruct (exists_last (l := l)) as (l1 & f & ->);
    [destruct l; simpl in H; [lia | discriminate]|].
  rewrite length_app in H; simpl in H.
  destruct (exists_last (l := l1)) as (l2 & v & ->);
    [destruct l1; simpl in H; [lia | discriminate]|].
  rewrite length_app in H; simpl in H.
  destruct (exists_last (l := l2)) as (gs & a & ->);
    [destruct l2; simpl in H; [lia | discriminate]|].
  rewrite length_app in H; simpl in H.
  exists gs, a, v, f. split.
  - now rewrite <- !app_assoc.
  - destruct gs; simpl in H; [lia | discriminate].
Qed.

(** What the parser returns once the marker is located. *)
Lemma extract_at (url : string) (idx : Z) :
  find_base url ["/maven2/"; "/repository/"] (-1) = idx -> 0 <= idx ->
  let segments := segments_of (Str.slice url (Some idx) None) in
  ((List.length segments < 4)%nat ->
     extract_maven_info_from_url url = Ok absent)
  /\ (forall gs a v f, segments = (gs ++ [a; v; f])%list -> gs <> [] ->
     extract_maven_info_from_url url
     = Ok (Some (Str.join "." gs), Some (Str.replace "_" "-" a), Some v,
           Str.endswith f "sources.jar")).
Proof.
  intros Hidx Hpos segments. unfold extract_maven_info_from_url.
  rewrite Hidx.
  destruct (Z.eqb_spec idx (-1)); [lia|].
  fold (segments_of (Str.slice url (Some idx) None)). fold segments.
  split.
  - intros Hlen. unfold PyList.len.
    destruct (Z.ltb_spec (Z.of_nat (List.length segments)) 4); [|lia].
    reflexivity.
  - intros gs a v f Hseg Hgs. rewrite Hseg.
    unfold PyList.len. rewrite length_app. simpl List.length.
    destruct (Z.ltb_spec (Z.of_nat (List.length gs + 3)) 4).
    + destruct gs; [congruence | simpl in *; lia].
    + destruct (index_last3 gs a v f) as (-> & -> & -> & ->).
      reflexivity.
Qed.

End MavenUrl.




(** ["/maven2/"] is looked for first, wherever ["/repository/"] is. *)
Example extract_maven_info_from_url_marker_priority :
  extract_maven_info_from_url
    "https://nexus.example.com/repository/releases/com/example/foo/1.0/maven2/foo.jar"
  = Ok absent.
Proof. reflexivity. Qed.

Lemma extract_returns (url : string) :
  exists r, extract_maven_info_from_url url = Ok r
            /\ (r = absent \/ exists g a v s, r = (Some g, Some a, Some v, s)).
Proof.
  destruct (find_base_range url) as [E|E].
  - exists absent. split; [|now left].
    unfold extract_maven_info_from_url. rewrite E. reflexivity.
  - destruct (extract_at url _ eq_refl E) as [Hshort Hlong].
    destruct (Nat.lt_ge_cases
      (List.length (segments_of (Str.slice url
         (Some (find_base url ["/maven2/"; "/repository/"] (-1))) None))) 4)
      as [Hlt|Hge].
    + exists absent. split; [now apply Hshort | now left].
    + destruct (last3 _ Hge) as (gs & a & v & f & Hseg & Hgs).
      eexists. split; [now apply (Hlong gs a v f)|].
      right. now repeat eexists.
Qed.

(** C6: the parser raises on no string, and returns either the absence
    marker or three coordinates; it returns the absence marker on every URL
    that contains neither marker, and on every URL whose path after the
    marker has fewer than four segments. *)
Theorem extract_maven_info_from_url_total (url : string) :
  (exists r, extract_maven_info_from_url url = Ok r
             /\ (r = absent \/ exists g a v s, r = (Some g, Some a, Some v, s)))
  /\ (~ Occurs "/maven2/" url -> ~ Occurs "/repository/" url ->
      extract_maven_info_from_url url = Ok absent)
  /\ (forall path, Marked url path ->
      (List.length (segments_of path) < 4)%nat ->
      extract_maven_info_from_url url = Ok absent).
Proof.
  split; [|split].
  - apply extract_returns.
  - intros H1 H2. unfold extract_maven_info_from_url.
    rewrite (find_base_unmarked _ H1 H2). reflexivity.
  - intros path Hm Hlen.
    destruct (find_base_marked _ _ Hm) as (idx & Hidx & Hpos & Hpath).
    destruct (extract_at url idx Hidx Hpos) as [H _].
    rewrite Hpath in H. now apply H.
Qed.

Lemma extract_maven_info_from_url_total_witness :
  extract_maven_info_from_url "https://example.com/downloads/foo-1.0.jar"
  = Ok absent
  /\ extract_maven_info_from_url "https://nexus.example.com/repository/foo/1.0/foo-1.0.jar"
     = Ok absent.
Proof.
  split.
  - apply (proj1 (proj2 (extract_maven_info_from_url_total
             "https://example.com/downloads/foo-1.0.jar"))).
    + intros (pre & post & H).
      pose proof (find_from_least _ _ _ _ 0 H) as L.
      vm_compute in L. destruct L as [L _]. now apply L.
    + intros (pre & post & H).
      pose proof (find_from_least _ _ _ _ 0 H) as L.
      vm_compute in L. destruct L as [L _]. now apply L.
  - apply (proj2 (proj2 (extract_maven_info_from_url_total
             "https://nexus.example.com/repository/foo/1.0/foo-1.0.jar"))
             "foo/1.0/foo-1.0.jar").
    + right. split.
      * intros (pre & post & H).
        pose proof (find_from_least _ _ _ _ 0 H) as L.
        vm_compute in L. destruct L as [L _]. now apply L.
      * exists "https://nexus.example.com".
        apply firstAt_of_find; reflexivity.
    + vm_compute. lia.
Defined.

(** ** Documents *)

Section FromDependencies.

Lemma packages_add (st : sbom_lists) (dep : dependency) :
  packages (add_dependency st dep) = (packages st ++ emitted dep)%list.
Proof. destruct dep; simpl; auto using app_nil_r. Qed.

Lemma packages_fold (deps : list dependency) (st : sbom_lists) :
  packages (fold_left add_dependency deps st)
  = (packages st ++ flat_map emitted deps)%list.
Proof.
  revert st; induction deps as [|dep deps IH]; intros st; simpl.
  - now rewrite app_nil_r.
  - now rewrite IH, packages_add, <- app_assoc.
Qed.

Lemma array_packages (timestamp : string) (deps : list dependency) :
  array (create_sbom_from_dependencies timestamp deps) "packages"
  = flat_map emitted deps.
Proof.
  unfold create_sbom_from_dependencies, array. simpl.
  now rewrite packages_fold.
Qed.

Lemma linked_add (st : sbom_lists) (dep : dependency) :
  linked st -> linked (add_dependency st dep).
Proof.
  intros H.
  assert (Old : forall r, In r (relationships st) ->
    field r "spdxElementId" = Some (JStr "SPDXRef-DOCUMENT")
    /\ exists p, In p (packages (add_dependency st dep))
                 /\ field p "SPDXID" = field r "relatedSpdxElement").
  { intros r Hr. destruct (H r Hr) as [Hs (p & Hp & Hid)].
    split; [assumption|]. exists p. split; [|assumption].
    rewrite packages_add. apply in_or_app. now left. }
  destruct dep; intros r Hr; cbn [add_dependency relationships] in Hr;
    try (now apply Old);
    apply in_app_or in Hr as [Hr | [<- | []]]; try (now apply Old);
    (split; [reflexivity|]);
    eexists; (split; [cbn [add_dependency packages]; apply in_or_app; right;
                     left; reflexivity | reflexivity]).
Qed.

Lemma linked_fold (deps : list dependency) (st : sbom_lists) :
  linked st -> linked (fold_left add_dependency deps st).
Proof.
  revert st; induction deps as [|dep deps IH]; intros st H; simpl; auto.
  apply IH. now apply linked_add.
Qed.

Lemma closed_from_dependencies (timestamp : string) (deps : list dependency) :
  closed (create_sbom_from_dependencies timestamp deps).
Proof.
  intros id Hin Hdoc.
  assert (L : linked (fold_left add_dependency deps
                        {| packages := []; relationships := [] |}))
    by (apply linked_fold; intros r []).
  unfold relationship_ids, package_ids, array,
    create_sbom_from_dependencies in *.
  cbn [field Dict.lookup String.eqb Ascii.eqb Bool.eqb] in *.
  apply in_flat_map in Hin as (r & Hr & Hid).
  destruct (L r Hr) as [Hs (p & Hp & Hpid)].
  destruct Hid as [Hid | [Hid | []]].
  - rewrite Hs in Hid. congruence.
  - apply in_map_iff. exists p. split; [congruence | assumption].
Qed.

End FromDependencies.

(** C9: two runs over the same dependency list give the same packages
    array and the same relationships array, whatever the two creation
    timestamps are. *)
Theorem create_sbom_from_dependencies_deterministic
  (timestamp1 timestamp2 : string) (deps : list dependency) :
  array (create_sbom_from_dependencies timestamp1 deps) "packages"
  = array (create_sbom_from_dependencies timestamp2 deps) "packages"
  /\ array (create_sbom_from_dependencies timestamp1 deps) "relationships"
     = array (create_sbom_from_dependencies timestamp2 deps) "relationships".
Proof. split; reflexivity. Qed.

(** C4: the packages array holds, in order, what each record contributes.
    A maven or python_no_pip record contributes one package whose download
    location is the record's URL; a pip-resolved python record contributes
    one package whose download location is "NOASSERTION" and whose URL is
    kept in an external reference of type URL; a record of another type
    contributes nothing. *)
Theorem download_location_by_type (timestamp : string)
  (deps : list dependency) :
  array (create_sbom_from_dependencies timestamp deps) "packages"
  = flat_map emitted deps
  /\ forall dep,
      match dep with
      | Maven _ _ _ url _ =>
          exists p, emitted dep = [p]
            /\ field p "downloadLocation" = Some (JStr url)
      | PythonNoPip _ _ url =>
          exists p, emitted dep = [p] /\ field p "downloadLocation" = Some url
      | Python _ _ url =>
          exists p, emitted dep = [p]
            /\ field p "downloadLocation" = Some (JStr "NOASSERTION")
            /\ exists refs, field p "externalRefs" = Some (JArr refs)
                 /\ In (JObj [("referenceCategory", JStr "OTHER");
                              ("referenceType", JStr "URL");
                              ("referenceLocator", JStr url)]) refs
      | Other _ => emitted dep = []
      end.
Proof.
  split; [apply array_packages|].
  intros [g a v url s | n v url | n v url | t]; cbn.
  - eexists; split; reflexivity.
  - eexists; split; [reflexivity|]. split; [reflexivity|].
    eexists; split; [reflexivity|]. right; left; reflexivity.
  - eexists; split; reflexivity.
  - reflexivity.
Qed.

(** A pip-resolved record, as the normalizer builds it from the requirement
    "requests==2.31.0", carries a URL and yet its package has the download
    location "NOASSERTION". *)
Lemma python_download_location_noassertion :
  let lock := JObj [("moduleExtensions", JObj [
    (pip_extension_key, JObj [("linux_x86_64", JObj [
       ("generatedRepoSpecs", JObj [
          ("pip_requests", JObj [("attributes", JObj [
             ("requirement", JStr "requests==2.31.0")])])])])])])] in
  let dep := Python "requests" "2.31.0"
    "https://pypi.org/packages/requests/2.31.0/requests-2.31.0.tar.gz" in
  bazel_lock_to_packages (Some "https://pypi.org/packages") lock = Ok [dep]
  /\ record_url dep = Some (JStr
       "https://pypi.org/packages/requests/2.31.0/requests-2.31.0.tar.gz")
  /\ exists p,
       array (create_sbom_from_dependencies "2026-01-01T00:00:00Z" [dep])
         "packages" = [p]
       /\ field p "downloadLocation" = Some (JStr "NOASSERTION")
       /\ field p "downloadLocation" <> record_url dep.
Proof.
  cbv zeta. split; [vm_compute; reflexivity|]. split; [reflexivity|].
  eexists. split; [vm_compute; reflexivity|].
  split; [reflexivity | discriminate].
Qed.

(** ** Loops in the error monad *)

Ltac bind_ok_as H x E :=
  match type of H with
  | bind ?m _ = Ok _ =>
      destruct m as [x|] eqn:E; cbn [bind] in H; [|discriminate H]
  end.

Tactic Notation "bind_ok" hyp(H) "as" ident(x) ident(E) := bind_ok_as H x E.

Lemma for_each_invariant {A S : Type} (P : S -> Prop)
  (body : A -> S -> result S) (xs : list A) :
  (forall x st st', In x xs -> P st -> body x st = Ok st' -> P st') ->
  forall st st', P st -> for_each xs body st = Ok st' -> P st'.
Proof.
  induction xs as [|x xs IH]; intros Hbody st st' HP H; simpl in H.
  - now injection H as <-.
  - bind_ok H as st1 E.
    apply (IH (fun y s s' Hy => Hbody y s s' (or_intror Hy)) st1 st'); auto.
    apply (Hbody x st st1); simpl; auto.
Qed.

Lemma for_each_total {A S : Type} (body : A -> S -> result S) (xs : list A) :
  (forall x st, In x xs -> exists st', body x st = Ok st') ->
  forall st, exists st', for_each xs body st = Ok st'.
Proof.
  induction xs as [|x xs IH]; intros Hbody st; simpl.
  - now exists st.
  - destruct (Hbody x st (or_introl eq_refl)) as [st1 ->]. cbn [bind].
    apply IH. intros y st2 Hy. apply Hbody. now right.
Qed.

(** ** Documents assembled from a manifest *)

Section FromManifest.

Lemma manifest_package_shape (maven_packages pkg : json)
  (st st' : sbom_lists * list string) :
  manifest_package maven_packages pkg st = Ok st' ->
  exists name p,
    pkg = JStr name
    /\ field p "SPDXID"
       = Some (JStr ("SPDXRef-GooglePackage-" ++ MD5.hexdigest name))
    /\ field p "name" = Some pkg
    /\ packages (fst st') = (packages (fst st) ++ [p])%list
    /\ relationships (fst st') = (relationships (fst st) ++ [JObj [
         ("spdxElementId", main_package_id);
         ("relatedSpdxElement",
          JStr ("SPDXRef-GooglePackage-" ++ MD5.hexdigest name));
         ("relationshipType", JStr "CONTAINS")]])%list.
Proof.
  unfold manifest_package. destruct st as [lists stderr].
  intros H. bind_ok H as name Ename.
  destruct pkg; cbn in Ename; try discriminate Ename.
  injection Ename as ->.
  bind_ok H as have_maven Ehave. bind_ok H as out Eout.
  destruct out as [pi stderr']. injection H as <-. exists name.
  destruct (truthy have_maven).
  - bind_ok Eout as url Eurl. injection Eout as <- <-.
    eexists. repeat split; reflexivity.
  - injection Eout as <- <-.
    eexists. repeat split; reflexivity.
Qed.

Lemma rooted_step (maven_packages pkg : json)
  (st st' : sbom_lists * list string) :
  rooted st -> manifest_package maven_packages pkg st = Ok st' -> rooted st'.
Proof.
  intros [Hr Hp] H.
  destruct (manifest_package_shape _ _ _ _ H)
    as (name & p & -> & Hid & _ & Hpk & Hrel).
  split.
  - intros r Hin. rewrite Hrel in Hin. rewrite Hpk.
    apply in_app_or in Hin as [Hin | [<- | []]].
    + destruct (Hr r Hin) as [?|[? (q & Hq & ?)]]; [now left|].
      right. split; [assumption|]. exists q. split; [|assumption].
      apply in_or_app. now left.
    + right. split; [reflexivity|]. exists p.
      split; [apply in_or_app; right; now left | exact Hid].
  - intros q Hin. rewrite Hpk in Hin.
    apply in_app_or in Hin as [Hin | [<- | []]]; [now apply Hp|].
    now exists name.
Qed.

Lemma create_sbom_arrays (created : string) (package_info maven_packages : json)
  (doc : json) (stderr : list string) :
  create_sbom created package_info maven_packages = Ok (doc, stderr) ->
  exists st, rooted st
    /\ In (JObj [("spdxElementId", document_id);
                 ("relatedSpdxElement", main_package_id);
                 ("relationshipType", JStr "DESCRIBES")])
          (relationships (fst st))
    /\ field doc "SPDXID" = Some document_id
    /\ array doc "packages" = packages (fst st)
    /\ array doc "relationships" = relationships (fst st).
Proof.
  unfold create_sbom. intros H.
  bind_ok H as top_level_target Etop. bind_ok H as pkgs Epkgs.
  bind_ok H as items Eitems. bind_ok H as out Eloop.
  destruct out as [lists err]. injection H as <- <-.
  exists (lists, err). split; [|split].
  - refine (for_each_invariant rooted _ _
              (fun x st st' _ => rooted_step maven_packages x st st') _ _
              _ Eloop).
    split.
    + intros r [<- | []]. left. now split.
    + intros p [].
  - assert (M : forall xs st st',
        for_each xs (manifest_package maven_packages) st = Ok st' ->
        forall r, In r (relationships (fst st)) ->
                  In r (relationships (fst st'))).
    { induction xs as [|x xs IH]; intros st st' Hf r Hr; simpl in Hf.
      - now injection Hf as <-.
      - bind_ok Hf as st1 Estep. apply (IH _ _ Hf).
        destruct (manifest_package_shape _ _ _ _ Estep)
          as (name & p & _ & _ & _ & _ & Hrel).
        rewrite Hrel. apply in_or_app. now left. }
    apply (M _ _ _ Eloop). now left.
  - repeat split; reflexivity.
Qed.

End FromManifest.

(** C1: a document assembled from dependency records is closed: every
    identifier of a relationship other than the document's own is the
    SPDXID of a package.  In a document assembled from a manifest every
    identifier of a relationship is the document's, the main package's, or
    the SPDXID of a package; the main package is referenced and is the
    SPDXID of no package. *)
Theorem relationship_closure :
  (forall timestamp deps,
      closed (create_sbom_from_dependencies timestamp deps))
  /\ (forall created package_info maven_packages doc stderr,
      create_sbom created package_info maven_packages = Ok (doc, stderr) ->
      (forall id, In (Some id) (relationship_ids doc) ->
         Some id = field doc "SPDXID" \/ id = main_package_id
         \/ In (Some id) (package_ids doc))
      /\ In (Some main_package_id) (relationship_ids doc)
      /\ ~ In (Some main_package_id) (package_ids doc)).
Proof.
  split; [exact closed_from_dependencies|].
  intros created package_info maven_packages doc stderr H.
  destruct (create_sbom_arrays _ _ _ _ _ H)
    as (st & [Hr Hp] & Hmain & Hdoc & Hpk & Hrel).
  unfold relationship_ids, package_ids. rewrite Hpk, Hrel, Hdoc.
  split; [|split].
  - intros id Hin. apply in_flat_map in Hin as (r & Hin & Hid).
    destruct (Hr r Hin) as [[Hs Ht] | [Hs (p & Hpin & Ht)]];
      destruct Hid as [Hid | [Hid | []]].
    + left. congruence.
    + right; left. congruence.
    + right; left. congruence.
    + right; right. apply in_map_iff. exists p. split; [congruence|assumption].
  - apply in_flat_map. eexists. split; [exact Hmain|]. right; left; reflexivity.
  - intros Hin. apply in_map_iff in Hin as (p & Hid & Hpin).
    destruct (Hp p Hpin) as [pkg Hpkg]. rewrite Hpkg in Hid.
    discriminate Hid.
Qed.

Lemma relationship_closure_witness :
  exists doc stderr,
    create_sbom "2026-01-01T00:00:00+00:00" manifest_zlib JNull
    = Ok (doc, stderr)
    /\ In (Some main_package_id) (relationship_ids doc)
    /\ ~ In (Some main_package_id) (package_ids doc).
Proof.
  eexists. eexists.
  assert (E : create_sbom "2026-01-01T00:00:00+00:00" manifest_zlib JNull
              = Ok (_, _)) by (vm_compute; reflexivity).
  split; [exact E|].
  exact (proj2 (proj2 relationship_closure _ _ _ _ _ E)).
Defined.

(** In manifest mode the main package is the target of a relationship and
    the source of another, and no package has its identifier. *)
Lemma manifest_not_closed :
  exists doc stderr,
    create_sbom "2026-01-01T00:00:00+00:00" manifest_zlib JNull
    = Ok (doc, stderr)
    /\ ~ closed doc.
Proof.
  eexists. eexists. split; [vm_compute; reflexivity|].
  intros C. specialize (C main_package_id).
  vm_compute in C.
  destruct C as [C | C]; try discriminate C; auto.
  intros D; discriminate D.
Qed.

Lemma for_each_app {A S : Type} (body : A -> S -> result S)
  (xs ys : list A) (st : S) :
  for_each (xs ++ ys)%list body st
  = (st' <- for_each xs body st ;; for_each ys body st').
Proof.
  revert st; induction xs as [|x xs IH]; intros st; simpl; [reflexivity|].
  destruct (body x st); cbn [bind]; [apply IH | reflexivity].
Qed.

(** ** Manifest mode without a Maven lock file *)

Lemma manifest_package_plain (pkg : string) (st : sbom_lists * list string) :
  maven_shaped pkg = false ->
  exists p,
    field p "downloadLocation" = Some (JStr "NOASSERTION")
    /\ field p "name" = Some (JStr pkg)
    /\ manifest_package JNull (JStr pkg) st
       = Ok ({| packages := (packages (fst st) ++ [p])%list;
                relationships := (relationships (fst st) ++ [JObj [
                  ("spdxElementId", main_package_id);
                  ("relatedSpdxElement",
                   JStr ("SPDXRef-GooglePackage-" ++ MD5.hexdigest pkg));
                  ("relationshipType", JStr "CONTAINS")]])%list |},
             List.app (snd st) ["MISSING  " ++ pkg]).
Proof.
  unfold maven_shaped. intros H. apply orb_false_iff in H as [H1 H2].
  destruct st as [lists stderr]. unfold manifest_package.
  cbn [str_receiver bind]. rewrite H1, H2. cbn [bind truthy].
  eexists. split; [|split]. 3: reflexivity. all: reflexivity.
Qed.

Lemma manifest_package_none (pkg : string) (st : sbom_lists * list string) :
  maven_shaped pkg = true ->
  manifest_package JNull (JStr pkg) st = Raise (AttributeError "get").
Proof.
  unfold maven_shaped, manifest_package. intros H.
  destruct st as [lists stderr]. cbn [str_receiver bind].
  destruct (Str.startswith pkg "@maven//:"); [reflexivity|].
  simpl in H. rewrite H. reflexivity.
Qed.

Lemma manifest_plain_prefix (before : list string) :
  (forall p, In p before -> maven_shaped p = false) ->
  forall st, exists st',
    for_each (map JStr before) (manifest_package JNull) st = Ok st'.
Proof.
  intros H. apply for_each_total. intros x st Hx.
  apply in_map_iff in Hx as (p & <- & Hp).
  destruct (manifest_package_plain p st (H p Hp)) as (q & _ & _ & ->).
  eauto.
Qed.

(** Without a lookup table the assembler raises at the first reference it
    would look up. *)
Lemma create_sbom_none (created : string) (top_level_target : json)
  (before : list string) (pkg : string) (after : list json) :
  (forall p, In p before -> maven_shaped p = false) ->
  maven_shaped pkg = true ->
  create_sbom created
    (JObj [("top_level_target", top_level_target);
           ("packages", JArr (map JStr before ++ JStr pkg :: after))])
    JNull
  = Raise (AttributeError "get").
Proof.
  intros Hbefore Hpkg. unfold create_sbom.
  cbn [Dict.getitem Dict.lookup String.eqb Ascii.eqb Bool.eqb bind iterate].
  rewrite for_each_app.
  destruct (manifest_plain_prefix before Hbefore
              ({| packages := [];
                  relationships := [JObj [
                    ("spdxElementId", JStr "SPDXRef-DOCUMENT");
                    ("relatedSpdxElement", JStr "SPDXRef-Package-main");
                    ("relationshipType", JStr "DESCRIBES")]] |}, []))
    as [st' ->].
  cbn [bind for_each]. now rewrite manifest_package_none.
Qed.

(** ** The entry point *)

(** C10: in manifest mode with no Maven lock file, [main] hands [None] to
    the manifest assembler as lookup table; the assembler then raises
    [AttributeError] at the first reference that starts with "@maven//:" or
    ends with "//file:file", and the run writes no document. *)
Theorem main_without_maven_install_raises (now : string)
  (getenv : option string) (files : string -> result json)
  (opts : Opts.options) (top_level_target : json)
  (before : list string) (pkg : string) (after : list json) :
  Opts.bazel_lock opts = "" ->
  Opts.maven_install opts = "" ->
  load files (Opts.packages_used opts)
  = Ok (JObj [("top_level_target", top_level_target);
              ("packages", JArr (map JStr before ++ JStr pkg :: after))]) ->
  (forall p, In p before -> maven_shaped p = false) ->
  maven_shaped pkg = true ->
  create_sbom now
    (JObj [("top_level_target", top_level_target);
           ("packages", JArr (map JStr before ++ JStr pkg :: after))])
    JNull
  = Raise (AttributeError "get")
  /\ main now getenv files opts = Raise (AttributeError "get").
Proof.
  intros Hlock Hmaven Hinfo Hbefore Hpkg.
  pose proof (create_sbom_none now top_level_target before pkg after
                Hbefore Hpkg) as E.
  split; [exact E|]. unfold main.
  rewrite Hlock, Hmaven. cbn [String.eqb negb]. rewrite Hinfo. cbn [bind].
  now rewrite E.
Qed.

Lemma main_without_maven_install_raises_witness :
  main "2026-01-01T00:00:00+00:00" None one_file
    {| Opts.out := "sbom.json";
       Opts.packages_used := Some "packages_used.json";
       Opts.maven_install := "";
       Opts.bazel_lock := "" |}
  = Raise (AttributeError "get").
Proof.
  refine (proj2 (main_without_maven_install_raises _ _ _ _
    (JStr "//app:server") ["@zlib//:zlib"]
    "@maven//:org_apache_commons_commons_lang3" [] _ _ _ _ _)).
  - reflexivity.
  - reflexivity.
  - reflexivity.
  - intros p [<- | []]. reflexivity.
  - reflexivity.
Defined.

(** C2: in manifest mode with a Maven lock file supplied, once both input
    files are read the run raises [NameError] at the call of
    [maven_install_to_packages] and writes no document. *)
Theorem main_maven_install_raises (now : string) (getenv : option string)
  (files : string -> result json) (opts : Opts.options)
  (package_info maven_install : json) :
  Opts.bazel_lock opts = "" ->
  Opts.maven_install opts <> "" ->
  load files (Opts.packages_used opts) = Ok package_info ->
  files (Opts.maven_install opts) = Ok maven_install ->
  main now getenv files opts = Raise (NameError "maven_install_to_packages").
Proof.
  intros Hlock Hmaven Hinfo Hinstall. unfold main.
  rewrite Hlock. cbn [String.eqb negb]. rewrite Hinfo. cbn [bind].
  apply String.eqb_neq in Hmaven. rewrite Hmaven. cbn [negb load].
  rewrite Hinstall. reflexivity.
Qed.

Lemma main_maven_install_raises_witness :
  main "2026-01-01T00:00:00+00:00" None two_files
    {| Opts.out := "sbom.json";
       Opts.packages_used := Some "packages_used.json";
       Opts.maven_install := "maven_install.json";
       Opts.bazel_lock := "" |}
  = Raise (NameError "maven_install_to_packages").
Proof.
  apply (main_maven_install_raises _ _ _ _ manifest_zlib (JObj []));
    [reflexivity | discriminate | reflexivity | reflexivity].
Defined.

(** ** Deduplication of Python records *)

Section Dedup.

Lemma key_eqb_eq (a b : package_key) : key_eqb a b = true <-> a = b.
Proof.
  destruct a as [a1 a2], b as [b1 b2]. unfold key_eqb. simpl.
  rewrite andb_true_iff, !String.eqb_eq. split.
  - now intros [-> ->].
  - intros H; injection H; auto.
Qed.

Lemma key_eqb_refl (a : package_key) : key_eqb a a = true.
Proof. now apply key_eqb_eq. Qed.

Lemma seen_mem_In (k : package_key) (seen : list package_key) :
  seen_mem k seen = true <-> In k seen.
Proof.
  unfold seen_mem. rewrite existsb_exists. split.
  - intros (x & Hx & E). apply key_eqb_eq in E. now subst.
  - intros H. exists k. split; [assumption | apply key_eqb_refl].
Qed.

Lemma unseen_cons (k : package_key) (seen : list package_key)
  (d : dependency) :
  unseen (k :: seen) d
  = negb (key_eqb (python_key d) k) && unseen seen d.
Proof. unfold unseen, seen_mem. simpl. now rewrite negb_orb. Qed.

Lemma filter_unseen_cons (k : package_key) (seen : list package_key)
  (l : list dependency) :
  filter (unseen (k :: seen)) l
  = filter (unseen seen)
      (filter (fun d => negb (key_eqb (python_key d) k)) l).
Proof.
  induction l as [|d l IH]; cbn [filter]; [reflexivity|].
  rewrite unseen_cons.
  destruct (key_eqb (python_key d) k); cbn [negb andb filter]; [exact IH|].
  destruct (unseen seen d); now rewrite IH.
Qed.

Lemma filter_unseen_absorb (k : package_key) (seen : list package_key)
  (l : list dependency) :
  seen_mem k seen = true ->
  filter (unseen seen)
    (filter (fun d => negb (key_eqb (python_key d) k)) l)
  = filter (unseen seen) l.
Proof.
  intros Hk. induction l as [|d l IH]; cbn [filter]; [reflexivity|].
  destruct (key_eqb (python_key d) k) eqn:E; cbn [negb filter].
  - apply key_eqb_eq in E.
    assert (U : unseen seen d = false) by (unfold unseen; now rewrite E, Hk).
    rewrite U. exact IH.
  - now rewrite IH.
Qed.

Lemma dedup_from_filter (cs : list dependency) :
  forall seen, dedup_from seen cs = filter (unseen seen) (first_occurrences cs).
Proof.
  induction cs as [|c cs IH]; intros seen;
    cbn [dedup_from first_occurrences filter]; [reflexivity|].
  unfold unseen at 1.
  destruct (seen_mem (python_key c) seen) eqn:E; cbn [negb].
  - rewrite IH. symmetry. now apply filter_unseen_absorb.
  - f_equal. rewrite IH. apply filter_unseen_cons.
Qed.

Lemma dedup_from_nil (cs : list dependency) :
  dedup_from [] cs = first_occurrences cs.
Proof.
  rewrite dedup_from_filter.
  induction (first_occurrences cs) as [|d l IH]; simpl; [reflexivity|].
  now rewrite IH.
Qed.

Lemma dedup_from_keys (cs : list dependency) :
  forall seen,
    NoDup (map python_key (dedup_from seen cs))
    /\ forall d, In d (dedup_from seen cs) -> ~ In (python_key d) seen.
Proof.
  induction cs as [|c cs IH]; intros seen; simpl.
  - split; [constructor | intros d []].
  - destruct (seen_mem (python_key c) seen) eqn:E; [apply IH|].
    destruct (IH (python_key c :: seen)) as [Hnd Hfresh].
    split.
    + simpl. constructor; [|assumption].
      intros Hin. apply in_map_iff in Hin as (d & Hk & Hd).
      apply (Hfresh d Hd). left. now symmetry.
    + intros d [<- | Hd].
      * intros Hin. apply seen_mem_In in Hin. congruence.
      * intros Hin. apply (Hfresh d Hd). now right.
Qed.

Lemma first_occurrences_NoDup (cs : list dependency) :
  NoDup (map python_key (first_occurrences cs)).
Proof. rewrite <- dedup_from_nil. apply dedup_from_keys. Qed.

(** Offering records one by one appends the deduplicated ones. *)
Lemma offer_fold (cs : list dependency) :
  Forall (fun c => is_python c = true) cs ->
  forall st,
    python_records (dependencies (fold_left offer cs st))
    = (python_records (dependencies st)
       ++ dedup_from (seen_python_packages st) cs)%list.
Proof.
  induction 1 as [|c cs Hc _ IH]; intros st; simpl.
  - now rewrite app_nil_r.
  - rewrite IH. unfold offer.
    destruct (seen_mem (python_key c) (seen_python_packages st));
      [reflexivity|].
    cbn [dependencies seen_python_packages]. unfold python_records.
    rewrite filter_app. simpl. rewrite Hc. now rewrite <- app_assoc.
Qed.

End Dedup.

Section Steps.

(** Splits on the outcome of the first computation a monadic body runs. *)
Ltac split_bind :=
  match goal with
  | |- context [bind ?m _] =>
      lazymatch m with
      | context [bind _ _] => fail
      | _ => destruct m; cbn [bind]; try reflexivity
      end
  end.

Variable base_url : option string.

Lemma pip_spec_offer (dep_info : json) (st : norm_state) :
  pip_spec base_url dep_info st
  = (emp <- pip_spec base_url dep_info empty_state ;;
     Ok (fold_left offer (dependencies emp) st)).
Proof.
  unfold pip_spec.
  split_bind. split_bind.
  destruct (truthy _); cbn [negb bind]; [|reflexivity].
  split_bind. split_bind.
  destruct (Str.contains _ _); cbn [bind]; [|reflexivity].
  destruct (Str.split1 _ _) as [|name [|version [|]]]; cbn [bind];
    try reflexivity.
  cbn [empty_state seen_python_packages dependencies].
  change (seen_mem (Str.lower name, version) []) with false. cbv iota.
  cbn [bind dependencies fold_left app]. unfold offer. cbn [python_key].
  destruct (seen_mem _ _); reflexivity.
Qed.

Lemma pip_candidates_python (dep_info : json) :
  Forall (fun c => is_python c = true) (candidates (pip_spec base_url) dep_info).
Proof.
  unfold candidates, pip_spec.
  destruct (Dict.get dep_info _ _); cbn [bind]; [|constructor].
  destruct (Dict.get _ _ _); cbn [bind]; [|constructor].
  destruct (truthy _); cbn [negb bind]; [|constructor].
  destruct (str_receiver _ _); cbn [bind]; [|constructor].
  destruct (PyList.index _ _); cbn [bind]; [|constructor].
  destruct (Str.contains _ _); cbn [bind]; [|constructor].
  destruct (Str.split1 _ _) as [|name [|version [|]]]; cbn [bind];
    try constructor.
  - reflexivity.
  - constructor.
Qed.

Lemma python_spec_offer (dep_info : json) (st : norm_state) :
  python_spec dep_info st
  = (emp <- python_spec dep_info empty_state ;;
     Ok (fold_left offer (dependencies emp) st)).
Proof.
  unfold python_spec.
  split_bind. split_bind.
  destruct (truthy _); cbn [negb bind]; [|reflexivity].
  split_bind. split_bind.
  destruct (truthy _); cbn [negb bind]; [|reflexivity].
  split_bind.
  destruct (parse_release_filename _) as [name version].
  destruct (truthy_str name && truthy_str version); cbn [negb bind];
    [|reflexivity].
  destruct name as [name|], version as [version|]; cbn [bind];
    try reflexivity.
  cbn [empty_state seen_python_packages dependencies].
  change (seen_mem (Str.lower name, version) []) with false. cbv iota.
  cbn [bind dependencies fold_left app]. unfold offer. cbn [python_key].
  destruct (seen_mem _ _); reflexivity.
Qed.

Lemma python_candidates_python (dep_info : json) :
  Forall (fun c => is_python c = true) (candidates python_spec dep_info).
Proof.
  unfold candidates, python_spec.
  destruct (Dict.get dep_info _ _); cbn [bind]; [|constructor].
  destruct (Dict.get _ _ _); cbn [bind]; [|constructor].
  destruct (truthy _); cbn [negb bind]; [|constructor].
  destruct (subscript0 _); cbn [bind]; [|constructor].
  destruct (Dict.get _ _ _); cbn [bind]; [|constructor].
  destruct (truthy _); cbn [negb bind]; [|constructor].
  destruct (str_receiver _ _); cbn [bind]; [|constructor].
  destruct (parse_release_filename _) as [name version].
  destruct (truthy_str name && truthy_str version); cbn [negb bind];
    [|constructor].
  destruct name as [name|], version as [version|]; cbn [bind];
    try constructor.
  - reflexivity.
  - constructor.
Qed.

(** A Maven entry leaves the Python records and the seen keys alone. *)
Lemma maven_spec_python (dep_info : json) (st st' : norm_state) :
  maven_spec dep_info st = Ok st' ->
  seen_python_packages st' = seen_python_packages st
  /\ python_records (dependencies st') = python_records (dependencies st).
Proof.
  unfold maven_spec. intros H.
  bind_ok H as attributes Eattr. bind_ok H as urls Eurls.
  destruct (truthy urls); cbn [negb] in H; [|now injection H as <-].
  bind_ok H as url Eurl. bind_ok H as url_s Estr. bind_ok H as info Einfo.
  destruct info as [[[groupId artifactId] version] is_sources].
  destruct (truthy_str groupId && truthy_str artifactId && truthy_str version);
    cbn [negb] in H; [|now injection H as <-].
  destruct groupId, artifactId, version; try (now injection H as <-).
  injection H as <-. cbn [dependencies seen_python_packages].
  split; [reflexivity|].
  unfold python_records. rewrite filter_app. simpl. apply app_nil_r.
Qed.

(** A loop whose body offers its candidates offers them all in order. *)
Lemma for_each_offer (body : json -> norm_state -> result norm_state) :
  (forall e st, body e st
     = (emp <- body e empty_state ;;
        Ok (fold_left offer (dependencies emp) st))) ->
  forall (specs : list (string * json)) st st',
    for_each specs (fun item => body (snd item)) st = Ok st' ->
    st' = fold_left offer (flat_map (candidates body) (map snd specs)) st.
Proof.
  intros Hbody. induction specs as [|[k e] specs IH]; intros st st' H;
    simpl in H.
  - now injection H as <-.
  - bind_ok H as st1 E. rewrite Hbody in E. bind_ok E as emp Eemp.
    injection E as <-. cbn [map snd flat_map]. rewrite fold_left_app.
    replace (candidates body e) with (dependencies emp)
      by (unfold candidates; now rewrite Eemp).
    now apply IH.
Qed.

Lemma member_ok (d : json) (key : string) (v : json) :
  Dict.get d key (JObj []) = Ok v -> member d key = v.
Proof. intros H. unfold member. now rewrite H. Qed.

Lemma entries_ok (d : json) (members : list (string * json)) :
  Dict.items d = Ok members -> entries d = map snd members.
Proof. intros H. unfold entries. now rewrite H. Qed.

Lemma pip_partition_offer (os_arch_data : json) (st st' : norm_state) :
  pip_partition base_url os_arch_data st = Ok st' ->
  st' = fold_left offer
          (flat_map (candidates (pip_spec base_url))
             (entries (member os_arch_data "generatedRepoSpecs"))) st.
Proof.
  unfold pip_partition. intros H.
  bind_ok H as specs Especs. bind_ok H as items Eitems.
  rewrite (member_ok _ _ _ Especs), (entries_ok _ _ Eitems).
  now apply for_each_offer; [apply pip_spec_offer|].
Qed.

Lemma partitions_offer (partitions : list (string * json)) :
  forall st st',
    for_each partitions (fun item => pip_partition base_url (snd item)) st
    = Ok st' ->
    st' = fold_left offer
            (flat_map
               (fun os_arch_data =>
                  flat_map (candidates (pip_spec base_url))
                    (entries (member os_arch_data "generatedRepoSpecs")))
               (map snd partitions)) st.
Proof.
  induction partitions as [|[k data] partitions IH]; intros st st' H;
    simpl in H.
  - now injection H as <-.
  - bind_ok H as st1 E. apply pip_partition_offer in E. subst st1.
    cbn [map snd flat_map]. rewrite fold_left_app. now apply IH.
Qed.

Lemma maven_loop_python (specs : list (string * json)) (st st' : norm_state) :
  for_each specs (fun item => maven_spec (snd item)) st = Ok st' ->
  seen_python_packages st' = seen_python_packages st
  /\ python_records (dependencies st') = python_records (dependencies st).
Proof.
  apply (for_each_invariant
    (fun s => seen_python_packages s = seen_python_packages st
              /\ python_records (dependencies s)
                 = python_records (dependencies st))); [|now split].
  intros item s s' _ [Hs Hp] H.
  destruct (maven_spec_python _ _ _ H) as [Hs' Hp']. split; congruence.
Qed.

Lemma python_candidates_all (bazel_lock : json) :
  Forall (fun c => is_python c = true) (python_candidates base_url bazel_lock).
Proof.
  unfold python_candidates. apply Forall_app. split.
  - apply Forall_forall. intros c Hc.
    apply in_flat_map in Hc as (data & _ & Hc).
    apply in_flat_map in Hc as (e & _ & Hc).
    pose proof (pip_candidates_python e) as F.
    rewrite Forall_forall in F. now apply F.
  - apply Forall_forall. intros c Hc.
    apply in_flat_map in Hc as (e & _ & Hc).
    pose proof (python_candidates_python e) as F.
    rewrite Forall_forall in F. now apply F.
Qed.

(** The normalizer's final state: the Python records are the candidates
    offered in traversal order to a state without Python records. *)
Lemma normalize_offer (bazel_lock : json) (st : norm_state) :
  normalize base_url bazel_lock = Ok st ->
  exists st0,
    python_records (dependencies st0) = []
    /\ seen_python_packages st0 = []
    /\ st = fold_left offer (python_candidates base_url bazel_lock) st0.
Proof.
  unfold normalize. intros H.
  bind_ok H as module_extensions Eext.
  bind_ok H as maven_extension Emaven. bind_ok H as general Egeneral.
  bind_ok H as maven_specs Emspecs. bind_ok H as maven_items Emitems.
  bind_ok H as st0 Eloop0.
  bind_ok H as pip_extension Epip. bind_ok H as partitions Eparts.
  bind_ok H as st1 Eloop1.
  bind_ok H as python_extension Epython. bind_ok H as general' Egeneral'.
  bind_ok H as python_specs Epspecs. bind_ok H as python_items Epitems.
  exists st0.
  destruct (maven_loop_python _ _ _ Eloop0) as [Hseen Hrec].
  split; [exact Hrec | split; [exact Hseen|]].
  apply partitions_offer in Eloop1.
  apply (for_each_offer python_spec python_spec_offer) in H.
  unfold python_candidates. rewrite fold_left_app.
  rewrite (member_ok _ _ _ Eext), (member_ok _ _ _ Epip),
    (entries_ok _ _ Eparts), (member_ok _ _ _ Epython),
    (member_ok _ _ _ Egeneral'), (member_ok _ _ _ Epspecs),
    (entries_ok _ _ Epitems).
  now rewrite <- Eloop1.
Qed.

End Steps.

(** C7: in the list the normalizer returns, the python and python_no_pip
    records have pairwise distinct (name lowercased, version) keys, and
    they are exactly the first occurrences, per key, of the records that
    the Python lock entries yield in traversal order. *)
Theorem python_records_deduplicated (base_url : option string)
  (bazel_lock : json) (deps : list dependency) :
  bazel_lock_to_packages base_url bazel_lock = Ok deps ->
  NoDup (map python_key (python_records deps))
  /\ python_records deps
     = first_occurrences (python_candidates base_url bazel_lock).
Proof.
  unfold bazel_lock_to_packages. intros H.
  bind_ok H as st E. injection H as <-.
  destruct (normalize_offer _ _ _ E) as (st0 & Hrec & Hseen & ->).
  assert (R : python_records
                (dependencies
                   (fold_left offer (python_candidates base_url bazel_lock) st0))
              = first_occurrences (python_candidates base_url bazel_lock)).
  { rewrite offer_fold by apply python_candidates_all.
    now rewrite Hrec, Hseen, dedup_from_nil. }
  rewrite R. split; [apply first_occurrences_NoDup | reflexivity].
Qed.

Lemma python_records_deduplicated_witness :
  let deps := [
    Python "Requests" "2.31.0"
      "https://pypi.org/packages/Requests/2.31.0/Requests-2.31.0.tar.gz";
    PythonNoPip "typing-extensions" "4.9.0"
      (JStr "https://files.example.org/typing_extensions-4.9.0.tar.gz")] in
  bazel_lock_to_packages (Some "https://pypi.org/packages") lock_duplicates
  = Ok deps
  /\ List.length (python_candidates (Some "https://pypi.org/packages")
                    lock_duplicates) = 4%nat
  /\ NoDup (map python_key (python_records deps))
  /\ python_records deps
     = first_occurrences
         (python_candidates (Some "https://pypi.org/packages") lock_duplicates).
Proof.
  cbv zeta.
  assert (E : bazel_lock_to_packages (Some "https://pypi.org/packages")
                lock_duplicates
              = Ok [
    Python "Requests" "2.31.0"
      "https://pypi.org/packages/Requests/2.31.0/Requests-2.31.0.tar.gz";
    PythonNoPip "typing-extensions" "4.9.0"
      (JStr "https://files.example.org/typing_extensions-4.9.0.tar.gz")])
    by (vm_compute; reflexivity).
  split; [exact E|]. split; [vm_compute; reflexivity|].
  exact (python_records_deduplicated _ _ _ E).
Defined.

(** ** Lock files that follow the schema *)

Section Totality.

Variable base_url : option string.

Lemma get_shape (key : string) (shape : json -> bool) (d default : json) :
  dict_with key shape d = true -> shape default = true ->
  exists v, Dict.get d key default = Ok v /\ shape v = true.
Proof.
  unfold dict_with, Dict.get. destruct d; try discriminate.
  destruct (Dict.lookup key members); eauto.
Qed.

Lemma items_shape (shape : json -> bool) (d : json) :
  dict_of shape d = true ->
  exists members, Dict.items d = Ok members
    /\ forall item, In item members -> shape (snd item) = true.
Proof.
  unfold dict_of, Dict.items. destruct d; try discriminate.
  intros H. exists members. split; [reflexivity|].
  now apply forallb_forall.
Qed.

Lemma maven_entry_total (dep_info : json) (st : norm_state) :
  maven_entry_shape dep_info = true ->
  exists st', maven_spec dep_info st = Ok st'.
Proof.
  intros H. unfold maven_spec.
  destruct (get_shape _ _ _ (JObj []) H eq_refl) as (attributes & -> & Ha).
  cbn [bind].
  destruct (get_shape _ _ _ (JArr []) Ha eq_refl) as (urls & -> & Hu).
  cbn [bind].
  destruct urls as [| | | | |items|]; try discriminate Hu.
  destruct items as [|u items]; cbn [truthy negb]; [eauto|].
  cbn [subscript0 bind]. simpl in Hu. apply andb_true_iff in Hu as [Hs _].
  destruct u; try discriminate Hs. cbn [str_receiver bind].
  destruct (extract_returns s) as (r & -> & _). cbn [bind].
  destruct r as [[[groupId artifactId] version] is_sources].
  destruct (truthy_str groupId && truthy_str artifactId && truthy_str version);
    cbn [negb]; [|eauto].
  destruct groupId, artifactId, version; eauto.
Qed.

Lemma split1_contains (s sep : string) :
  Str.contains s sep = true -> exists a b, Str.split1 sep s = [a; b].
Proof.
  unfold Str.contains, Str.split1. intros H. apply Z.leb_le in H.
  destruct (Z.ltb_spec (Str.find s sep) 0); [lia|]. eauto.
Qed.

Lemma pip_entry_total (dep_info : json) (st : norm_state) :
  pip_entry_shape dep_info = true ->
  exists st', pip_spec base_url dep_info st = Ok st'.
Proof.
  intros H. unfold pip_spec.
  destruct (get_shape _ _ _ (JObj []) H eq_refl) as (attributes & -> & Ha).
  cbn [bind].
  destruct (get_shape _ _ _ JNull Ha eq_refl) as (requirement & -> & Hr).
  cbn [bind].
  destruct requirement as [| | | |r| |]; try discriminate Hr;
    cbn [truthy negb]; [eauto|].
  cbn [requirement_shape] in Hr.
  destruct (String.eqb r ""); cbn [negb orb] in *; [eauto|].
  cbn [str_receiver bind]. unfold has_token in Hr.
  destruct (Str.split_whitespace _) as [|name_version rest];
    [discriminate Hr|].
  change (PyList.index (name_version :: rest) 0) with (Ok name_version).
  cbn [bind].
  destruct (Str.contains name_version "==") eqn:C; [|eauto].
  destruct (split1_contains _ _ C) as (name & version & ->).
  destruct (seen_mem _ _); eauto.
Qed.

Lemma python_entry_total (dep_info : json) (st : norm_state) :
  python_entry_shape dep_info = true ->
  exists st', python_spec dep_info st = Ok st'.
Proof.
  intros H. unfold python_spec.
  destruct (get_shape _ _ _ (JObj []) H eq_refl) as (attributes & -> & Ha).
  cbn [bind]. apply andb_true_iff in Ha as [Hu Hf].
  destruct (get_shape _ _ _ (JArr []) Hu eq_refl) as (urls & -> & Hu').
  cbn [bind].
  destruct urls as [| | | | |items|]; try discriminate Hu'.
  destruct items as [|u items]; cbn [truthy negb]; [eauto|].
  cbn [subscript0 bind].
  destruct (get_shape _ _ _ JNull Hf eq_refl) as (release & -> & Hf').
  cbn [bind].
  destruct release as [| | | |f| |]; try discriminate Hf';
    cbn [truthy negb]; [eauto|].
  destruct (String.eqb f ""); cbn [negb]; [eauto|].
  cbn [str_receiver bind].
  destruct (parse_release_filename f) as [name version].
  destruct (truthy_str name && truthy_str version); cbn [negb]; [|eauto].
  destruct name, version; eauto.
  destruct (seen_mem _ _); eauto.
Qed.

Lemma specs_total (entry : json -> bool)
  (body : json -> norm_state -> result norm_state) (container : json) :
  (forall e st, entry e = true -> exists st', body e st = Ok st') ->
  specs_shape entry container = true ->
  forall st, exists st',
    (generated_repo_specs <-
       Dict.get container "generatedRepoSpecs" (JObj []) ;;
     specs <- Dict.items generated_repo_specs ;;
     for_each specs (fun item => body (snd item)) st) = Ok st'.
Proof.
  intros Hbody H st.
  destruct (get_shape _ _ _ (JObj []) H eq_refl) as (specs & -> & Hs).
  cbn [bind].
  destruct (items_shape _ _ Hs) as (members & -> & Hm). cbn [bind].
  apply for_each_total. intros item st1 Hin. apply Hbody. now apply Hm.
Qed.

Lemma normalize_total (bazel_lock : json) :
  lock_shape bazel_lock = true ->
  exists st, normalize base_url bazel_lock = Ok st.
Proof.
  intros H. unfold normalize.
  destruct (get_shape _ _ _ (JObj []) H eq_refl) as (exts & -> & He).
  cbn [bind]. apply andb_true_iff in He as [He Hpython].
  apply andb_true_iff in He as [Hmaven Hpip].
  destruct (get_shape _ _ _ (JObj []) Hmaven eq_refl) as (maven & -> & Hm).
  cbn [bind].
  destruct (get_shape _ _ _ (JObj []) Hm eq_refl) as (general & -> & Hg).
  cbn [bind].
  destruct (specs_total _ maven_spec general maven_entry_total Hg empty_state)
    as (st0 & E0).
  unfold empty_state in E0.
  destruct (Dict.get general "generatedRepoSpecs" (JObj []))
    as [specs|]; cbn [bind] in E0 |- *; [|discriminate E0].
  destruct (Dict.items specs) as [items|]; cbn [bind] in E0 |- *;
    [|discriminate E0].
  rewrite E0. cbn [bind].
  destruct (get_shape _ _ _ (JObj []) Hpip eq_refl) as (pip & -> & Hp).
  cbn [bind].
  destruct (items_shape _ _ Hp) as (partitions & -> & Hparts). cbn [bind].
  destruct (for_each_total
              (fun item => pip_partition base_url (snd item)) partitions)
    with (st := st0) as (st1 & ->).
  { intros item st Hin. unfold pip_partition.
    apply (specs_total _ (pip_spec base_url) (snd item) pip_entry_total).
    now apply Hparts. }
  cbn [bind].
  destruct (get_shape _ _ _ (JObj []) Hpython eq_refl) as (python & -> & Hpy).
  cbn [bind].
  destruct (get_shape _ _ _ (JObj []) Hpy eq_refl) as (general' & -> & Hg').
  cbn [bind].
  apply (specs_total _ python_spec general' python_entry_total Hg').
Qed.

End Totality.

Section Skips.

Variable base_url : option string.
Variable attrs : list (string * json).
Variable st : norm_state.

Lemma skip_no_urls :
  Dict.lookup "urls" attrs = None ->
  maven_spec (repo_spec attrs) st = Ok st /\ python_spec (repo_spec attrs) st = Ok st.
Proof.
  intros H. unfold maven_spec, python_spec, repo_spec.
  cbn [Dict.get Dict.lookup String.eqb Ascii.eqb Bool.eqb bind].
  rewrite H. cbn [bind truthy negb]. now split.
Qed.

Lemma skip_unparsable_url (url : string) (rest : list json) :
  Dict.lookup "urls" attrs = Some (JArr (JStr url :: rest)) ->
  extract_maven_info_from_url url = Ok absent ->
  maven_spec (repo_spec attrs) st = Ok st.
Proof.
  intros H E. unfold maven_spec, repo_spec.
  cbn [Dict.get Dict.lookup String.eqb Ascii.eqb Bool.eqb bind].
  rewrite H. cbn [bind truthy negb subscript0 str_receiver].
  rewrite E. reflexivity.
Qed.

Lemma skip_no_requirement :
  Dict.lookup "requirement" attrs = None ->
  pip_spec base_url (repo_spec attrs) st = Ok st.
Proof.
  intros H. unfold pip_spec, repo_spec.
  cbn [Dict.get Dict.lookup String.eqb Ascii.eqb Bool.eqb bind].
  rewrite H. reflexivity.
Qed.

Lemma skip_no_version (requirement name_version : string)
  (rest : list string) :
  Dict.lookup "requirement" attrs = Some (JStr requirement) ->
  Str.split_whitespace (Str.strip Str.isspace requirement)
  = name_version :: rest ->
  Str.contains name_version "==" = false ->
  pip_spec base_url (repo_spec attrs) st = Ok st.
Proof.
  intros H Hparts Hno. unfold pip_spec, repo_spec.
  cbn [Dict.get Dict.lookup String.eqb Ascii.eqb Bool.eqb bind].
  rewrite H. cbn [bind].
  destruct requirement as [|c r]; [discriminate Hparts|].
  cbn [truthy String.eqb negb str_receiver bind].
  rewrite Hparts.
  change (PyList.index (name_version :: rest) 0) with (Ok name_version).
  cbn [bind]. now rewrite Hno.
Qed.

Lemma skip_no_release_filename (url : json) (rest : list json) :
  Dict.lookup "urls" attrs = Some (JArr (url :: rest)) ->
  Dict.lookup "release_filename" attrs = None
  \/ (exists f, Dict.lookup "release_filename" attrs = Some (JStr f)
                /\ Str.has_char "/" f = false) ->
  python_spec (repo_spec attrs) st = Ok st.
Proof.
  intros H Hf. unfold python_spec, repo_spec.
  cbn [Dict.get Dict.lookup String.eqb Ascii.eqb Bool.eqb bind].
  rewrite H. cbn [bind truthy negb subscript0].
  destruct Hf as [-> | (f & -> & Hslash)]; [reflexivity|].
  destruct f as [|c f]; [reflexivity|].
  cbn [truthy String.eqb negb str_receiver bind].
  now rewrite (parse_release_filename_absent _ Hslash).
Qed.

End Skips.

(** C3: on a lock file that follows the schema (mappings where the
    normalizer expects mappings, [urls] a list of strings,
    [release_filename] a string or null, [requirement] null or a string
    that is empty or holds a token) the normalizer returns a list of
    records; and an entry without a URL list, with a URL the Maven parser
    rejects, without a requirement, with a requirement whose first token
    has no "==", or without a release filename that has a slash, leaves
    the loop state as it was, so that the loop goes on with the next
    entry. *)
Theorem bazel_lock_to_packages_returns (base_url : option string) :
  (forall bazel_lock, lock_shape bazel_lock = true ->
     exists deps, bazel_lock_to_packages base_url bazel_lock = Ok deps)
  /\ (forall attrs st,
      (Dict.lookup "urls" attrs = None ->
         maven_spec (repo_spec attrs) st = Ok st /\ python_spec (repo_spec attrs) st = Ok st)
      /\ (forall url rest,
            Dict.lookup "urls" attrs = Some (JArr (JStr url :: rest)) ->
            extract_maven_info_from_url url = Ok absent ->
            maven_spec (repo_spec attrs) st = Ok st)
      /\ (Dict.lookup "requirement" attrs = None ->
            pip_spec base_url (repo_spec attrs) st = Ok st)
      /\ (forall requirement name_version rest,
            Dict.lookup "requirement" attrs = Some (JStr requirement) ->
            Str.split_whitespace (Str.strip Str.isspace requirement)
            = name_version :: rest ->
            Str.contains name_version "==" = false ->
            pip_spec base_url (repo_spec attrs) st = Ok st)
      /\ (forall url rest,
            Dict.lookup "urls" attrs = Some (JArr (url :: rest)) ->
            Dict.lookup "release_filename" attrs = None
            \/ (exists f,
                  Dict.lookup "release_filename" attrs = Some (JStr f)
                  /\ Str.has_char "/" f = false) ->
            python_spec (repo_spec attrs) st = Ok st)).
Proof.
  split.
  - intros bazel_lock H. unfold bazel_lock_to_packages.
    destruct (normalize_total base_url bazel_lock H) as [st ->].
    cbn [bind]. eauto.
  - intros attrs st. repeat split.
    + now apply skip_no_urls.
    + now apply skip_no_urls.
    + apply skip_unparsable_url.
    + apply skip_no_requirement.
    + apply skip_no_version.
    + apply skip_no_release_filename.
Qed.

Example lock_mixed_result :
  bazel_lock_to_packages None lock_mixed
  = Ok [Maven "com.google.guava" "guava" "32.1.2"
          "https://repo1.maven.org/maven2/com/google/guava/guava/32.1.2/guava-32.1.2.jar"
          false;
        Python "requests" "2.31.0"
          "None/requests/2.31.0/requests-2.31.0.tar.gz";
        PythonNoPip "six" "1.16.0"
          (JStr "https://files.example.org/six-1.16.0.tar.gz")].
Proof. vm_compute. reflexivity. Qed.

Lemma bazel_lock_to_packages_returns_witness :
  (exists deps, bazel_lock_to_packages None lock_mixed = Ok deps)
  /\ pip_spec None
       (JObj [("attributes", JObj [("requirement", JStr "urllib3>=2")])])
       empty_state
     = Ok empty_state.
Proof.
  split.
  - apply (proj1 (bazel_lock_to_packages_returns None) lock_mixed).
    vm_compute. reflexivity.
  - apply (proj1 (proj2 (proj2 (proj2 (proj2
             (bazel_lock_to_packages_returns None)
             [("requirement", JStr "urllib3>=2")] empty_state))))
           "urllib3>=2" "urllib3>=2" []); reflexivity.
Defined.

(** A requirement made of whitespace, and a repo spec that is a string
    instead of a mapping, make the normalizer raise. *)
Lemma bazel_lock_to_packages_raises :
  bazel_lock_to_packages None
    (JObj [("moduleExtensions", JObj [
       (pip_extension_key, JObj [("linux_x86_64", JObj [
          ("generatedRepoSpecs", JObj [
             ("pip_blank", JObj [("attributes", JObj [
                ("requirement", JStr " ")])]);
             ("pip_requests", JObj [("attributes", JObj [
                ("requirement", JStr "requests==2.31.0")])])])])])])])
  = Raise IndexError
  /\ bazel_lock_to_packages None
       (JObj [("moduleExtensions", JObj [
          (maven_extension_key, JObj [("general", JObj [
             ("generatedRepoSpecs", JObj [
                ("com_google_guava_guava", JStr "guava-32.1.2.jar")])])])])])
     = Raise (AttributeError "get").
Proof. split; vm_compute; reflexivity. Qed.

(** * Further properties *)

(** ** The document assembled from dependency records *)

Section Assembler.

Lemma relationships_add (st : sbom_lists) (dep : dependency) :
  relationships (add_dependency st dep)
  = (relationships st ++ emitted_relationships dep)%list.
Proof. destruct dep; simpl; auto using app_nil_r. Qed.

Lemma relationships_fold (deps : list dependency) (st : sbom_lists) :
  relationships (fold_left add_dependency deps st)
  = (relationships st ++ flat_map emitted_relationships deps)%list.
Proof.
  revert st; induction deps as [|dep deps IH]; intros st; simpl.
  - now rewrite app_nil_r.
  - now rewrite IH, relationships_add, <- app_assoc.
Qed.

Lemma array_relationships (timestamp : string) (deps : list dependency) :
  array (create_sbom_from_dependencies timestamp deps) "relationships"
  = flat_map emitted_relationships deps.
Proof.
  unfold create_sbom_from_dependencies, array. simpl.
  now rewrite relationships_fold.
Qed.

Lemma map_flat_map_pointwise {A B C : Type} (f : B -> C) (g : A -> list B)
  (l : list A) :
  map f (flat_map g l) = flat_map (fun x => map f (g x)) l.
Proof.
  induction l as [|x l IH]; simpl; [reflexivity|].
  now rewrite map_app, IH.
Qed.

Lemma flat_map_pointwise {A B : Type} (f g : A -> list B) (l : list A) :
  (forall x, f x = g x) -> flat_map f l = flat_map g l.
Proof.
  intros H. induction l as [|x l IH]; simpl; [reflexivity|].
  now rewrite H, IH.
Qed.

Lemma fold_recognized (deps : list dependency) (st : sbom_lists) :
  fold_left add_dependency (filter recognized deps) st
  = fold_left add_dependency deps st.
Proof.
  revert st; induction deps as [|dep deps IH]; intros st; [reflexivity|].
  destruct dep; simpl; apply IH.
Qed.

End Assembler.

(** X1: in a document assembled from dependency records the relationships
    and the packages go in step: the i-th relationship targets the SPDXID
    of the i-th package, goes from the document and is of kind DESCRIBES,
    and there is one package per record of a recognized type. *)
Theorem relationships_follow_packages (timestamp : string)
  (deps : list dependency) :
  let doc := create_sbom_from_dependencies timestamp deps in
  map (fun r => field r "relatedSpdxElement") (array doc "relationships")
  = map (fun p => field p "SPDXID") (array doc "packages")
  /\ Forall (fun r => field r "spdxElementId" = Some document_id
                      /\ field r "relationshipType" = Some (JStr "DESCRIBES"))
       (array doc "relationships")
  /\ List.length (array doc "packages")
     = List.length (filter recognized deps).
Proof.
  cbv zeta. rewrite array_relationships, array_packages. split; [|split].
  - rewrite !map_flat_map_pointwise. apply flat_map_pointwise.
    intros [g a v u s | n v u | n v u | t]; reflexivity.
  - apply Forall_forall. intros r Hr.
    apply in_flat_map in Hr as (dep & _ & Hr).
    destruct dep; simpl in Hr; try contradiction;
      destruct Hr as [<- | []]; now split.
  - induction deps as [|dep deps IH]; [reflexivity|].
    cbn [flat_map filter]. rewrite length_app, IH.
    destruct dep; reflexivity.
Qed.

(** X2: assembling a concatenation of two record lists gives the packages
    of the first followed by the packages of the second, and likewise for
    the relationships. *)
Theorem create_sbom_from_dependencies_app (timestamp : string)
  (deps1 deps2 : list dependency) :
  array (create_sbom_from_dependencies timestamp (deps1 ++ deps2)) "packages"
  = (array (create_sbom_from_dependencies timestamp deps1) "packages"
     ++ array (create_sbom_from_dependencies timestamp deps2) "packages")%list
  /\ array (create_sbom_from_dependencies timestamp (deps1 ++ deps2))
       "relationships"
     = (array (create_sbom_from_dependencies timestamp deps1) "relationships"
        ++ array (create_sbom_from_dependencies timestamp deps2)
             "relationships")%list.
Proof.
  rewrite !array_packages, !array_relationships.
  split; apply flat_map_app.
Qed.

(** X3: records of an unrecognized type leave no trace: the document is
    the one assembled from the records of the three known types alone. *)
Theorem create_sbom_from_dependencies_recognized (timestamp : string)
  (deps : list dependency) :
  create_sbom_from_dependencies timestamp deps
  = create_sbom_from_dependencies timestamp (filter recognized deps).
Proof.
  unfold create_sbom_from_dependencies. now rewrite fold_recognized.
Qed.

(** ** More on the two parsers *)

Section Parsers.

Lemma has_char_append (c : ascii) (a b : string) :
  Str.has_char c (a ++ b) = Str.has_char c a || Str.has_char c b.
Proof.
  induction a as [|x a IH]; simpl; [reflexivity|].
  now rewrite IH, orb_assoc.
Qed.

(** A string that holds [c] splits at its first [c]. *)
Lemma has_char_first (c : ascii) (s : string) :
  Str.has_char c s = true ->
  exists v rest, s = v ++ String c rest /\ Str.has_char c v = false.
Proof.
  induction s as [|x s IH]; simpl; [discriminate|].
  destruct (Ascii.eqb_spec x c) as [->|Hx]; simpl.
  - intros _. now exists "", s.
  - intros H. destruct (IH H) as (v & rest & -> & Hv).
    exists (String x v), rest. split; [reflexivity|].
    simpl. rewrite Hv, orb_false_r. now apply Ascii.eqb_neq.
Qed.

Lemma split1_char (c : ascii) (v rest : string) :
  Str.has_char c v = false ->
  Str.split1 (String c "") (v ++ String c rest) = [v; rest].
Proof.
  intros Hv. unfold Str.split1. rewrite (find_char _ _ _ Hv).
  destruct (Z.ltb_spec (Str.len v) 0); [unfold Str.len in *; lia|].
  rewrite slice_to_append.
  change (v ++ String c rest) with (v ++ String c "" ++ rest).
  rewrite <- append_assoc.
  replace (Str.len v + Str.len (String c ""))
    with (Str.len (v ++ String c ""))
    by (unfold Str.len; rewrite length_append; simpl; lia).
  now rewrite slice_from_append.
Qed.

Lemma replace_keeps_char (c a b : ascii) (s : string) :
  c <> a -> c <> b ->
  Str.has_char c (Str.replace a b s) = Str.has_char c s.
Proof.
  intros Ha Hb. induction s as [|x s IH]; simpl; [reflexivity|].
  rewrite IH. f_equal.
  destruct (Ascii.eqb_spec x a) as [->|Hx]; [|reflexivity].
  transitivity false; [|symmetry]; apply Ascii.eqb_neq; congruence.
Qed.

Lemma split_no_sep (sep : ascii) (s : string) :
  Forall (fun seg => Str.has_char sep seg = false) (Str.split sep s).
Proof.
  induction s as [|c s IH]; simpl.
  - now repeat constructor.
  - destruct (Ascii.eqb_spec c sep) as [->|Hc].
    + now constructor.
    + assert (Hneq : Ascii.eqb c sep = false) by now apply Ascii.eqb_neq.
      destruct (Str.split sep s) as [|seg rest].
      { constructor; [simpl; now rewrite Hneq | constructor]. }
      inversion IH as [|? ? Hseg Hrest]; subst.
      constructor; [|assumption].
      simpl. rewrite Hseg, orb_false_r. now apply Ascii.eqb_neq.
Qed.

Lemma join_no_char (c : ascii) (sep : string) (parts : list string) :
  Str.has_char c sep = false ->
  Forall (fun seg => Str.has_char c seg = false) parts ->
  Str.has_char c (Str.join sep parts) = false.
Proof.
  intros Hsep. induction 1 as [|p parts Hp _ IH]; [reflexivity|].
  destruct parts as [|q parts]; [exact Hp|].
  change (Str.join sep (p :: q :: parts))
    with (p ++ sep ++ Str.join sep (q :: parts)).
  now rewrite !has_char_append, Hp, Hsep, IH.
Qed.

(** When the parser returns coordinates, they come from the segments of
    the path it cut off. *)
Lemma extract_found (url : string) (g a v : string) (s : bool) :
  extract_maven_info_from_url url = Ok (Some g, Some a, Some v, s) ->
  exists path gs a0 f,
    segments_of path = (gs ++ [a0; v; f])%list
    /\ g = Str.join "." gs /\ a = Str.replace "_" "-" a0.
Proof.
  intros H.
  destruct (find_base_range url) as [E|E].
  - unfold extract_maven_info_from_url in H. rewrite E in H. discriminate H.
  - destruct (extract_at url _ eq_refl E) as [Hshort Hlong].
    destruct (Nat.lt_ge_cases
      (List.length (segments_of (Str.slice url
         (Some (find_base url ["/maven2/"; "/repository/"] (-1))) None))) 4)
      as [Hlt|Hge].
    + rewrite (Hshort Hlt) in H. discriminate H.
    + destruct (last3 _ Hge) as (gs & a0 & v0 & f & Hseg & Hgs).
      rewrite (Hlong gs a0 v0 f Hseg Hgs) in H.
      injection H as <- <- <- _.
      now exists (Str.slice url
        (Some (find_base url ["/maven2/"; "/repository/"] (-1))) None),
        gs, a0, f.
Qed.

End Parsers.

(** X4: whatever the URL, the coordinates the Maven parser returns hold no
    slash. *)
Theorem extract_maven_info_from_url_no_slash (url g a v : string) (s : bool) :
  extract_maven_info_from_url url = Ok (Some g, Some a, Some v, s) ->
  Str.has_char "/" g = false /\ Str.has_char "/" a = false
  /\ Str.has_char "/" v = false.
Proof.
  intros H. destruct (extract_found _ _ _ _ _ H)
    as (path & gs & a0 & f & Hseg & -> & ->).
  pose proof (split_no_sep "/" (Str.strip (Ascii.eqb "/") path)) as F.
  fold (segments_of path) in F. rewrite Hseg in F.
  apply Forall_app in F as [Fgs F].
  inversion F as [|? ? Ha0 F']; subst. inversion F' as [|? ? Hv _]; subst.
  repeat split.
  - now apply join_no_char.
  - rewrite replace_keeps_char; [assumption | discriminate | discriminate].
  - assumption.
Qed.

Lemma extract_maven_info_from_url_no_slash_witness :
  extract_maven_info_from_url
    "https://repo1.maven.org/maven2/com/google/guava/guava/32.1.2/guava-32.1.2.jar"
  = Ok (Some "com.google.guava", Some "guava", Some "32.1.2", false)
  /\ Str.has_char "/" "com.google.guava" = false
  /\ Str.has_char "/" "guava" = false
  /\ Str.has_char "/" "32.1.2" = false.
Proof.
  split; [reflexivity|].
  apply (extract_maven_info_from_url_no_slash
    "https://repo1.maven.org/maven2/com/google/guava/guava/32.1.2/guava-32.1.2.jar"
    "com.google.guava" "guava" "32.1.2" false).
  reflexivity.
Defined.

Lemma parse_release_filename_inv (s name version : string) :
  parse_release_filename s = (Some name, Some version) ->
  Str.has_char "_" name = false
  /\ Str.has_char "/" version = false
  /\ exists rest, s = version ++ "/" ++ rest.
Proof.
  intros H. destruct (Str.has_char "/" s) eqn:Hs.
  - destruct (has_char_first _ _ Hs) as (v & rest & -> & Hv).
    unfold parse_release_filename in H. rewrite (split1_char _ _ _ Hv) in H.
    injection H as <- <-. repeat split.
    + apply replace_has_char. discriminate.
    + exact Hv.
    + now exists rest.
  - rewrite (parse_release_filename_absent _ Hs) in H. discriminate H.
Qed.

(** X5: when the release-filename parser returns a name and a version, the
    input is the version, a slash, and a remainder; the version holds no
    slash and the name no underscore. *)
Theorem parse_release_filename_result (s name version : string) :
  parse_release_filename s = (Some name, Some version) ->
  Str.has_char "_" name = false
  /\ Str.has_char "/" version = false
  /\ exists rest, s = version ++ "/" ++ rest.
Proof. apply parse_release_filename_inv. Qed.

Lemma parse_release_filename_result_witness :
  parse_release_filename "4.9.0/typing_extensions.tar.gz"
  = (Some "typing-extensions", Some "4.9.0")
  /\ Str.has_char "_" "typing-extensions" = false
  /\ Str.has_char "/" "4.9.0" = false
  /\ exists rest, "4.9.0/typing_extensions.tar.gz" = "4.9.0" ++ "/" ++ rest.
Proof.
  split; [reflexivity|].
  apply (parse_release_filename_result "4.9.0/typing_extensions.tar.gz").
  reflexivity.
Defined.

(** X6: a release filename whose remainder does not end with ".tar.gz" is
    cut at its first slash all the same; the whole remainder, later
    slashes and other extensions included, becomes the name. *)
Theorem parse_release_filename_other_extension (version rest : string) :
  Str.has_char "/" version = false ->
  Str.endswith rest ".tar.gz" = false ->
  parse_release_filename (version ++ "/" ++ rest)
  = (Some (Str.replace "_" "-" rest), Some version).
Proof.
  intros Hv Hrest. unfold parse_release_filename.
  change (version ++ "/" ++ rest) with (version ++ String "/" rest).
  now rewrite (split1_char _ _ _ Hv), Hrest.
Qed.

Lemma parse_release_filename_other_extension_witness :
  parse_release_filename ("3.11.4" ++ "/" ++ "linux/c_python.zip")
  = (Some "linux/c-python.zip", Some "3.11.4").
Proof.
  apply (parse_release_filename_other_extension "3.11.4" "linux/c_python.zip");
    reflexivity.
Defined.

(** ** The list the normalizer returns *)

Section NormalizerOutput.

Variable base_url : option string.

Ltac split_get :=
  match goal with
  | |- context [bind ?m _] =>
      lazymatch m with
      | context [bind _ _] => fail
      | _ => destruct m; cbn [bind]; try reflexivity
      end
  end.

Lemma maven_spec_append (dep_info : json) (st : norm_state) :
  maven_spec dep_info st
  = (emp <- maven_spec dep_info empty_state ;;
     Ok {| dependencies := (dependencies st ++ dependencies emp)%list;
           seen_python_packages := seen_python_packages st |}).
Proof.
  destruct st as [deps seen]. unfold maven_spec.
  cbn [dependencies seen_python_packages empty_state].
  split_get. split_get.
  destruct (truthy _); cbn [negb bind]; [|now rewrite app_nil_r].
  split_get. split_get.
  destruct (extract_maven_info_from_url _)
    as [[[[groupId artifactId] version] is_sources]|]; cbn [bind];
    [|reflexivity].
  destruct (truthy_str groupId && truthy_str artifactId && truthy_str version);
    cbn [negb bind]; [|now rewrite app_nil_r].
  destruct groupId, artifactId, version; cbn [bind dependencies app];
    now rewrite ?app_nil_r.
Qed.

Lemma maven_loop_append (specs : list (string * json)) :
  forall st st',
    for_each specs (fun item => maven_spec (snd item)) st = Ok st' ->
    st' = {| dependencies :=
               (dependencies st
                ++ flat_map (candidates maven_spec) (map snd specs))%list;
             seen_python_packages := seen_python_packages st |}.
Proof.
  induction specs as [|[k e] specs IH]; intros st st' H; simpl in H.
  - injection H as <-. destruct st; cbn. now rewrite app_nil_r.
  - bind_ok H as st1 E. rewrite maven_spec_append in E.
    bind_ok E as emp Eemp. injection E as <-.
    rewrite (IH _ _ H). cbn [map snd flat_map dependencies seen_python_packages].
    replace (candidates maven_spec e) with (dependencies emp)
      by (unfold candidates; now rewrite Eemp).
    now rewrite app_assoc.
Qed.

Lemma offer_fold_all (cs : list dependency) :
  forall st,
    dependencies (fold_left offer cs st)
    = (dependencies st ++ dedup_from (seen_python_packages st) cs)%list.
Proof.
  induction cs as [|c cs IH]; intros st; simpl.
  - now rewrite app_nil_r.
  - rewrite IH. unfold offer.
    destruct (seen_mem (python_key c) (seen_python_packages st));
      [reflexivity|].
    cbn [dependencies seen_python_packages]. now rewrite <- app_assoc.
Qed.

Lemma normalize_output (bazel_lock : json) (st : norm_state) :
  normalize base_url bazel_lock = Ok st ->
  dependencies st
  = (maven_candidates bazel_lock
     ++ first_occurrences (python_candidates base_url bazel_lock))%list.
Proof.
  unfold normalize. intros H.
  bind_ok H as module_extensions Eext.
  bind_ok H as maven_extension Emaven. bind_ok H as general Egeneral.
  bind_ok H as maven_specs Emspecs. bind_ok H as maven_items Emitems.
  bind_ok H as st0 Eloop0.
  bind_ok H as pip_extension Epip. bind_ok H as partitions Eparts.
  bind_ok H as st1 Eloop1.
  bind_ok H as python_extension Epython. bind_ok H as general' Egeneral'.
  bind_ok H as python_specs Epspecs. bind_ok H as python_items Epitems.
  apply maven_loop_append in Eloop0. cbn [dependencies seen_python_packages app]
    in Eloop0.
  apply partitions_offer in Eloop1.
  apply (for_each_offer python_spec python_spec_offer) in H.
  subst st st1. rewrite <- fold_left_app, offer_fold_all. subst st0.
  cbn [dependencies seen_python_packages]. rewrite dedup_from_nil.
  unfold maven_candidates, python_candidates.
  now rewrite (member_ok _ _ _ Eext), (member_ok _ _ _ Emaven),
    (member_ok _ _ _ Egeneral), (member_ok _ _ _ Emspecs),
    (entries_ok _ _ Emitems), (member_ok _ _ _ Epip),
    (entries_ok _ _ Eparts), (member_ok _ _ _ Epython),
    (member_ok _ _ _ Egeneral'), (member_ok _ _ _ Epspecs),
    (entries_ok _ _ Epitems).
Qed.

Lemma truthy_str_inv (v : option string) :
  truthy_str v = true -> exists s, v = Some s /\ s <> "".
Proof.
  destruct v as [s|]; simpl; [|discriminate].
  intros H. exists s. split; [reflexivity|].
  apply negb_true_iff in H. now apply String.eqb_neq.
Qed.

Lemma maven_candidate_inv (dep_info : json) (d : dependency) :
  In d (candidates maven_spec dep_info) -> well_formed base_url d.
Proof.
  unfold candidates, maven_spec.
  destruct (Dict.get dep_info _ _); cbn [bind]; [|intros []].
  destruct (Dict.get _ _ _); cbn [bind]; [|intros []].
  destruct (truthy _); cbn [negb bind]; [|intros []].
  destruct (subscript0 _); cbn [bind]; [|intros []].
  destruct (str_receiver _ _) as [url|]; cbn [bind]; [|intros []].
  destruct (extract_maven_info_from_url url) as [info|] eqn:E; cbn [bind];
    [|intros []].
  destruct info as [[[groupId artifactId] version] is_sources].
  destruct (truthy_str groupId) eqn:Hg; cbn [andb negb]; [|intros []].
  destruct (truthy_str artifactId) eqn:Ha; cbn [andb negb]; [|intros []].
  destruct (truthy_str version) eqn:Hv; cbn [andb negb]; [|intros []].
  destruct (truthy_str_inv _ Hg) as (gid & -> & Hg').
  destruct (truthy_str_inv _ Ha) as (aid & -> & Ha').
  destruct (truthy_str_inv _ Hv) as (ver & -> & Hv').
  cbn. intros [<- | []]. cbn. auto.
Qed.

Lemma pip_candidate_inv (dep_info : json) (d : dependency) :
  In d (candidates (pip_spec base_url) dep_info) -> well_formed base_url d.
Proof.
  unfold candidates, pip_spec.
  destruct (Dict.get dep_info _ _); cbn [bind]; [|intros []].
  destruct (Dict.get _ _ _); cbn [bind]; [|intros []].
  destruct (truthy _); cbn [negb bind]; [|intros []].
  destruct (str_receiver _ _); cbn [bind]; [|intros []].
  destruct (PyList.index _ _); cbn [bind]; [|intros []].
  destruct (Str.contains _ _); cbn [bind]; [|intros []].
  destruct (Str.split1 _ _) as [|name [|version [|]]]; cbn [bind].
  - intros [].
  - intros [].
  - cbn. intros [<- | []]. reflexivity.
  - intros [].
Qed.

Lemma python_candidate_inv (dep_info : json) (d : dependency) :
  In d (candidates python_spec dep_info) -> well_formed base_url d.
Proof.
  unfold candidates, python_spec.
  destruct (Dict.get dep_info _ _); cbn [bind]; [|intros []].
  destruct (Dict.get _ _ _); cbn [bind]; [|intros []].
  destruct (truthy _); cbn [negb bind]; [|intros []].
  destruct (subscript0 _); cbn [bind]; [|intros []].
  destruct (Dict.get _ _ _); cbn [bind]; [|intros []].
  destruct (truthy _); cbn [negb bind]; [|intros []].
  destruct (str_receiver _ _) as [f|]; cbn [bind]; [|intros []].
  destruct (parse_release_filename f) as [name version] eqn:E.
  destruct (truthy_str name) eqn:Hn; cbn [andb negb]; [|intros []].
  destruct (truthy_str version) eqn:Hv; cbn [andb negb]; [|intros []].
  destruct (truthy_str_inv _ Hn) as (nm & -> & Hn').
  destruct (truthy_str_inv _ Hv) as (ver & -> & Hv').
  destruct (parse_release_filename_inv _ _ _ E) as (H1 & H2 & _).
  cbn. intros [<- | []]. cbn. auto.
Qed.

Lemma first_occurrences_incl (cs : list dependency) (d : dependency) :
  In d (first_occurrences cs) -> In d cs.
Proof.
  revert d; induction cs as [|c cs IH]; intros d; simpl; [auto|].
  intros [<- | H]; [now left|]. right. apply IH.
  now apply filter_In in H.
Qed.

Lemma normalize_well_formed (bazel_lock : json) (deps : list dependency) :
  bazel_lock_to_packages base_url bazel_lock = Ok deps ->
  Forall (well_formed base_url) deps.
Proof.
  unfold bazel_lock_to_packages. intros H.
  bind_ok H as st E. injection H as <-.
  rewrite (normalize_output _ _ E).
  apply Forall_forall. intros d Hd.
  apply in_app_or in Hd as [Hd | Hd].
  - unfold maven_candidates in Hd.
    apply in_flat_map in Hd as (e & _ & Hd).
    now apply maven_candidate_inv in Hd.
  - apply first_occurrences_incl in Hd. unfold python_candidates in Hd.
    apply in_app_or in Hd as [Hd | Hd].
    + apply in_flat_map in Hd as (data & _ & Hd).
      apply in_flat_map in Hd as (e & _ & Hd).
      now apply pip_candidate_inv in Hd.
    + apply in_flat_map in Hd as (e & _ & Hd).
      now apply python_candidate_inv in Hd.
Qed.

End NormalizerOutput.

(** X7: the list the normalizer returns is made of the records of the
    Maven entries, one per entry that parses, in order and with duplicates
    kept, followed by the Python records deduplicated by first
    occurrence. *)
Theorem bazel_lock_to_packages_output (base_url : option string)
  (bazel_lock : json) (deps : list dependency) :
  bazel_lock_to_packages base_url bazel_lock = Ok deps ->
  deps = (maven_candidates bazel_lock
          ++ first_occurrences (python_candidates base_url bazel_lock))%list.
Proof.
  unfold bazel_lock_to_packages. intros H.
  bind_ok H as st E. injection H as <-. now apply normalize_output.
Qed.

Lemma bazel_lock_to_packages_output_witness :
  exists deps,
    bazel_lock_to_packages None lock_mixed = Ok deps
    /\ deps = (maven_candidates lock_mixed
               ++ first_occurrences (python_candidates None lock_mixed))%list.
Proof.
  eexists. split; [exact lock_mixed_result|].
  exact (bazel_lock_to_packages_output _ _ _ lock_mixed_result).
Defined.

(** X8: a maven record the normalizer returns has a non-empty groupId,
    artifactId and version, and they are what the Maven URL parser gives
    on the record's URL. *)
Theorem maven_records_well_formed (base_url : option string)
  (bazel_lock : json) (deps : list dependency)
  (groupId artifactId version url : string) (is_sources : bool) :
  bazel_lock_to_packages base_url bazel_lock = Ok deps ->
  In (Maven groupId artifactId version url is_sources) deps ->
  groupId <> "" /\ artifactId <> "" /\ version <> ""
  /\ extract_maven_info_from_url url
     = Ok (Some groupId, Some artifactId, Some version, is_sources).
Proof.
  intros H Hin. pose proof (normalize_well_formed _ _ _ H) as F.
  rewrite Forall_forall in F. exact (F _ Hin).
Qed.

Lemma maven_records_well_formed_witness :
  "com.google.guava" <> "" /\ "guava" <> "" /\ "32.1.2" <> ""
  /\ extract_maven_info_from_url
       "https://repo1.maven.org/maven2/com/google/guava/guava/32.1.2/guava-32.1.2.jar"
     = Ok (Some "com.google.guava", Some "guava", Some "32.1.2", false).
Proof.
  refine (maven_records_well_formed None lock_mixed _ _ _ _ _ _
            lock_mixed_result _).
  left. reflexivity.
Defined.

(** X9: the URL of a pip-resolved python record the normalizer returns is
    the value of BAZEL_PYPI_REPOSITORIES, or the text "None" when the
    variable is unset, followed by /name/version/name-version.tar.gz. *)
Theorem python_records_url (base_url : option string)
  (bazel_lock : json) (deps : list dependency) (name version url : string) :
  bazel_lock_to_packages base_url bazel_lock = Ok deps ->
  In (Python name version url) deps ->
  url = format_env base_url ++ "/" ++ name ++ "/" ++ version
        ++ "/" ++ name ++ "-" ++ version ++ ".tar.gz"
  /\ (base_url = None -> Str.startswith url "None/" = true).
Proof.
  intros H Hin. pose proof (normalize_well_formed _ _ _ H) as F.
  rewrite Forall_forall in F. specialize (F _ Hin). cbn in F.
  split; [exact F|]. intros ->. subst url. cbn. apply startswith_nil.
Qed.

Lemma python_records_url_witness :
  "None/requests/2.31.0/requests-2.31.0.tar.gz"
  = format_env None ++ "/" ++ "requests" ++ "/" ++ "2.31.0"
    ++ "/" ++ "requests" ++ "-" ++ "2.31.0" ++ ".tar.gz"
  /\ (@None string = None ->
      Str.startswith "None/requests/2.31.0/requests-2.31.0.tar.gz" "None/"
      = true).
Proof.
  refine (python_records_url None lock_mixed _ _ _ _
            lock_mixed_result _).
  right; left. reflexivity.
Defined.

(** X10: a python_no_pip record the normalizer returns has a non-empty
    name without underscore and a non-empty version without slash. *)
Theorem python_no_pip_records_well_formed (base_url : option string)
  (bazel_lock : json) (deps : list dependency) (name version : string)
  (url : json) :
  bazel_lock_to_packages base_url bazel_lock = Ok deps ->
  In (PythonNoPip name version url) deps ->
  name <> "" /\ version <> ""
  /\ Str.has_char "_" name = false /\ Str.has_char "/" version = false.
Proof.
  intros H Hin. pose proof (normalize_well_formed _ _ _ H) as F.
  rewrite Forall_forall in F. exact (F _ Hin).
Qed.

Lemma python_no_pip_records_well_formed_witness :
  "six" <> "" /\ "1.16.0" <> ""
  /\ Str.has_char "_" "six" = false /\ Str.has_char "/" "1.16.0" = false.
Proof.
  refine (python_no_pip_records_well_formed None lock_mixed _ _ _ _
            lock_mixed_result _).
  right; right; left. reflexivity.
Defined.

(** X11: the normalizer returns records of the three recognized types
    only, so that the assembler gives every one of them a package and a
    relationship. *)
Theorem normalized_records_all_assembled (base_url : option string)
  (bazel_lock : json) (deps : list dependency) (timestamp : string) :
  bazel_lock_to_packages base_url bazel_lock = Ok deps ->
  let doc := create_sbom_from_dependencies timestamp deps in
  Forall (fun dep => recognized dep = true) deps
  /\ List.length (array doc "packages") = List.length deps
  /\ List.length (array doc "relationships") = List.length deps.
Proof.
  intros H doc. pose proof (normalize_well_formed _ _ _ H) as F.
  assert (R : Forall (fun dep => recognized dep = true) deps).
  { apply Forall_forall. intros d Hd. rewrite Forall_forall in F.
    specialize (F d Hd). destruct d; [reflexivity..|contradiction]. }
  split; [exact R|]. unfold doc.
  rewrite array_packages, array_relationships. clear H F doc.
  induction R as [|d deps Hd _ [IH1 IH2]]; [now split|].
  cbn [flat_map]. rewrite !length_app, IH1, IH2.
  destruct d; try discriminate Hd; now split.
Qed.

Lemma normalized_records_all_assembled_witness :
  exists deps,
    bazel_lock_to_packages None lock_mixed = Ok deps
    /\ List.length
         (array (create_sbom_from_dependencies "2026-01-01T00:00:00Z" deps)
            "packages") = 3%nat.
Proof.
  eexists. split; [exact lock_mixed_result|].
  exact (proj1 (proj2 (normalized_records_all_assembled None lock_mixed _
           "2026-01-01T00:00:00Z"
           lock_mixed_result))).
Defined.

(** ** The document assembled from a manifest *)

Section Manifest.

Variable maven_packages : json.

(** What one turn of the loop over the manifest does when it does not
    raise. *)
Lemma manifest_package_step (pkg : json) (st st' : sbom_lists * list string) :
  manifest_package maven_packages pkg st = Ok st' ->
  exists name location,
    pkg = JStr name
    /\ fst st' = {| packages :=
                      (packages (fst st) ++ [package_entry name location])%list;
                    relationships :=
                      (relationships (fst st)
                       ++ [contains_relationship name])%list |}
    /\ (snd st' = snd st
        \/ (location = JStr "NOASSERTION"
            /\ snd st' = List.app (snd st) [missing_notice name])).
Proof.
  unfold manifest_package. destruct st as [lists stderr].
  intros H. bind_ok H as name Ename.
  destruct pkg; cbn in Ename; try discriminate Ename.
  injection Ename as ->.
  bind_ok H as have_maven Ehave. bind_ok H as out Eout.
  destruct out as [pi stderr']. injection H as <-. exists name.
  destruct (truthy have_maven).
  - bind_ok Eout as url Eurl. injection Eout as <- <-.
    exists url. repeat split. now left.
  - injection Eout as <- <-.
    exists (JStr "NOASSERTION"). repeat split. right. now split.
Qed.

Lemma manifest_loop (pkgs : list json) :
  forall st st',
    for_each pkgs (manifest_package maven_packages) st = Ok st' ->
    exists entries : list (string * json),
      pkgs = map (fun e => JStr (fst e)) entries
      /\ packages (fst st')
         = (packages (fst st)
            ++ map (fun e => package_entry (fst e) (snd e)) entries)%list
      /\ relationships (fst st')
         = (relationships (fst st)
            ++ map (fun e => contains_relationship (fst e)) entries)%list
      /\ (List.length (snd st')
          <= List.length (snd st) + List.length entries)%nat.
Proof.
  induction pkgs as [|pkg pkgs IH]; intros st st' H; simpl in H.
  - injection H as <-. exists []. simpl. rewrite !app_nil_r.
    repeat split. lia.
  - bind_ok H as st1 E.
    destruct (manifest_package_step _ _ _ E)
      as (name & location & -> & Hfst & Hsnd).
    destruct (IH _ _ H) as (entries & -> & Hp & Hr & Hlen).
    exists ((name, location) :: entries).
    rewrite Hp, Hr, Hfst. cbn [packages relationships map fst snd].
    rewrite <- !app_assoc. repeat split.
    simpl List.length.
    destruct Hsnd as [E1 | [_ E1]]; rewrite E1 in Hlen;
      [|rewrite length_app in Hlen; simpl in Hlen]; lia.
Qed.

End Manifest.

(** X12: a document assembled from a manifest bears the manifest's
    top_level_target as name and has, in manifest order and with
    repetitions kept, one package per reference, named after it and
    identified by the prefixed MD5 digest of it; its relationships are the
    one from the document to the main package, then one CONTAINS per
    package; and there are at most as many notices as references. *)
Theorem create_sbom_structure (created : string)
  (package_info maven_packages doc : json) (stderr : list string) :
  create_sbom created package_info maven_packages = Ok (doc, stderr) ->
  exists (top_level_target : json) (entries : list (string * json)),
    Dict.getitem package_info "top_level_target" = Ok top_level_target
    /\ (pkgs <- Dict.getitem package_info "packages" ;; iterate pkgs)
       = Ok (map (fun e => JStr (fst e)) entries)
    /\ field doc "name" = Some top_level_target
    /\ array doc "packages"
       = map (fun e => package_entry (fst e) (snd e)) entries
    /\ array doc "relationships"
       = describes_main :: map (fun e => contains_relationship (fst e)) entries
    /\ (List.length stderr <= List.length entries)%nat.
Proof.
  unfold create_sbom. intros H.
  bind_ok H as top_level_target Etop. bind_ok H as pkgs Epkgs.
  bind_ok H as items Eitems. bind_ok H as out Eloop.
  destruct out as [lists err]. injection H as <- <-.
  destruct (manifest_loop _ _ _ _ Eloop) as (entries & -> & Hp & Hr & Hlen).
  exists top_level_target, entries. cbn [fst snd packages relationships] in *.
  repeat split; try reflexivity.
  - cbn [bind]. exact Eitems.
  - unfold array. cbn. exact Hp.
  - unfold array. cbn. exact Hr.
  - simpl in Hlen. exact Hlen.
Qed.

Lemma create_sbom_structure_witness :
  exists doc stderr,
    create_sbom "2026-01-01T00:00:00+00:00" manifest_zlib JNull
    = Ok (doc, stderr)
    /\ exists (top_level_target : json) (entries : list (string * json)),
         Dict.getitem manifest_zlib "top_level_target" = Ok top_level_target
         /\ (pkgs <- Dict.getitem manifest_zlib "packages" ;; iterate pkgs)
            = Ok (map (fun e => JStr (fst e)) entries)
         /\ field doc "name" = Some top_level_target
         /\ array doc "packages"
            = map (fun e => package_entry (fst e) (snd e)) entries
         /\ array doc "relationships"
            = describes_main
              :: map (fun e => contains_relationship (fst e)) entries
         /\ (List.length stderr <= List.length entries)%nat.
Proof.
  assert (E : create_sbom "2026-01-01T00:00:00+00:00" manifest_zlib JNull
              = Ok (_, _)) by (vm_compute; reflexivity).
  eexists. eexists. split; [exact E|].
  exact (create_sbom_structure _ _ _ _ _ E).
Defined.

(** X13: a package_info that lacks "top_level_target" makes the assembler
    raise KeyError before anything else is looked at; one that has it and
    lacks "packages" raises KeyError too. *)
Theorem create_sbom_missing_key (created : string)
  (members : list (string * json)) (maven_packages : json) :
  (Dict.lookup "top_level_target" members = None ->
   create_sbom created (JObj members) maven_packages
   = Raise (KeyError "top_level_target"))
  /\ (Dict.lookup "top_level_target" members <> None ->
      Dict.lookup "packages" members = None ->
      create_sbom created (JObj members) maven_packages
      = Raise (KeyError "packages")).
Proof.
  unfold create_sbom. cbn [Dict.getitem]. split.
  - intros ->. reflexivity.
  - intros Htop Hpk.
    destruct (Dict.lookup "top_level_target" members); [|congruence].
    cbn [bind]. rewrite Hpk. reflexivity.
Qed.

Lemma create_sbom_missing_key_witness :
  create_sbom "2026-01-01T00:00:00+00:00"
    (JObj [("packages", JArr [])]) JNull
  = Raise (KeyError "top_level_target")
  /\ create_sbom "2026-01-01T00:00:00+00:00"
       (JObj [("top_level_target", JStr "//app:server")]) JNull
     = Raise (KeyError "packages").
Proof.
  split.
  - apply (proj1 (create_sbom_missing_key _ [("packages", JArr [])] JNull)).
    reflexivity.
  - apply (proj2 (create_sbom_missing_key _
             [("top_level_target", JStr "//app:server")] JNull));
      [discriminate | reflexivity].
Defined.

(** ** Resolving the references of a manifest *)

Section Resolution.

Variable table : list (string * json).
Variable st : sbom_lists * list string.

Lemma slice_prefix_9 (coord : string) :
  Str.slice ("@maven//:" ++ coord) (Some 9) None = coord.
Proof. change 9 with (Str.len "@maven//:"). apply slice_from_append. Qed.

Lemma slice_middle (c : ascii) (root suffix : string) :
  suffix <> "" ->
  Str.slice (String c root ++ suffix) (Some 1) (Some (- Str.len suffix))
  = root.
Proof.
  intros Hs.
  assert (0 < String.length suffix)%nat
    by (destruct suffix; simpl; [congruence | lia]).
  unfold Str.slice, Str.clip, Str.len. simpl (String c root ++ suffix).
  simpl String.length. rewrite length_append.
  change (1 <? 0) with false. cbv iota.
  destruct (Z.ltb_spec (- Z.of_nat (String.length suffix)) 0); [|lia].
  rewrite Z.min_l by lia. rewrite Z.max_r by lia.
  change (Z.to_nat 1) with 1%nat. cbn [Str.drop].
  replace (Z.to_nat _) with (String.length root) by lia.
  apply take_append.
Qed.

Lemma resolved_step (pkg key : string) (meta url : json) :
  (if Str.startswith pkg "@maven//:" then
     Dict.get (JObj table) (Str.slice pkg (Some 9) None) JNull
   else if Str.endswith pkg magic_file_suffix then
     Dict.get (JObj table)
       (Str.slice pkg (Some 1) (Some (- Str.len magic_file_suffix))) JNull
   else Ok JNull) = Ok meta ->
  truthy meta = true ->
  Dict.getitem meta "url" = Ok url ->
  manifest_package (JObj table) (JStr pkg) st = Ok (appended st pkg url, snd st).
Proof.
  intros Hget Ht Hurl. unfold manifest_package. destruct st as [lists stderr].
  cbn [str_receiver bind]. rewrite Hget. cbn [bind]. rewrite Ht, Hurl.
  reflexivity.
Qed.

Lemma unresolved_step (maven_packages : json) (pkg : string) (meta : json) :
  (if Str.startswith pkg "@maven//:" then
     Dict.get maven_packages (Str.slice pkg (Some 9) None) JNull
   else if Str.endswith pkg magic_file_suffix then
     Dict.get maven_packages
       (Str.slice pkg (Some 1) (Some (- Str.len magic_file_suffix))) JNull
   else Ok JNull) = Ok meta ->
  truthy meta = false ->
  manifest_package maven_packages (JStr pkg) st
  = Ok (appended st pkg (JStr "NOASSERTION"),
        List.app (snd st) [missing_notice pkg]).
Proof.
  intros Hget Ht. unfold manifest_package. destruct st as [lists stderr].
  cbn [str_receiver bind]. rewrite Hget. cbn [bind]. rewrite Ht.
  reflexivity.
Qed.

Lemma suffix_form (c : ascii) (root : string) :
  Str.endswith (String c root ++ magic_file_suffix) magic_file_suffix = true
  /\ Str.slice (String c root ++ magic_file_suffix) (Some 1)
       (Some (- Str.len magic_file_suffix)) = root.
Proof.
  split; [apply endswith_append | apply slice_middle; discriminate].
Qed.

(** X14: a reference "@maven//:" followed by a coordinate that the lookup
    table maps to metadata with a "url" gets that URL as download location,
    and no notice is printed. *)
Theorem manifest_package_maven_prefix (coord : string) (meta url : json) :
  Dict.lookup coord table = Some meta ->
  truthy meta = true ->
  Dict.getitem meta "url" = Ok url ->
  manifest_package (JObj table) (JStr ("@maven//:" ++ coord)) st
  = Ok ({| packages :=
             (packages (fst st)
              ++ [package_entry ("@maven//:" ++ coord) url])%list;
           relationships :=
             (relationships (fst st)
              ++ [contains_relationship ("@maven//:" ++ coord)])%list |},
        snd st).
Proof.
  intros Hl Ht Hurl. apply (resolved_step _ coord meta); auto.
  rewrite startswith_append, slice_prefix_9. cbn [Dict.get]. now rewrite Hl.
Qed.

(** X15: a reference that ends with "//file:file" and does not start with
    "@maven//:" is looked up without its first character, whatever it is,
    and without the suffix; when the table maps that root to metadata with
    a "url", the package gets that URL and no notice is printed. *)
Theorem manifest_package_file_suffix (c : ascii) (root : string)
  (meta url : json) :
  Str.startswith (String c root ++ magic_file_suffix) "@maven//:" = false ->
  Dict.lookup root table = Some meta ->
  truthy meta = true ->
  Dict.getitem meta "url" = Ok url ->
  manifest_package (JObj table) (JStr (String c root ++ magic_file_suffix)) st
  = Ok ({| packages :=
             (packages (fst st)
              ++ [package_entry (String c root ++ magic_file_suffix) url])%list;
           relationships :=
             (relationships (fst st)
              ++ [contains_relationship
                    (String c root ++ magic_file_suffix)])%list |},
        snd st).
Proof.
  intros Hp Hl Ht Hurl. apply (resolved_step _ root meta); auto.
  destruct (suffix_form c root) as [-> ->]. rewrite Hp.
  cbn [Dict.get]. now rewrite Hl.
Qed.

(** X16: with a lookup table at hand, a reference of neither form, or one
    whose coordinate or root the table does not hold, or holds with empty
    metadata, gets the download location "NOASSERTION" and one notice
    "MISSING" that names it; the run goes on. *)
Theorem manifest_package_unresolved (pkg : string) :
  maven_shaped pkg = false
  \/ (exists coord,
        pkg = "@maven//:" ++ coord
        /\ forall meta, Dict.lookup coord table = Some meta ->
                        truthy meta = false)
  \/ (exists c root,
        pkg = String c root ++ magic_file_suffix
        /\ Str.startswith pkg "@maven//:" = false
        /\ forall meta, Dict.lookup root table = Some meta ->
                        truthy meta = false) ->
  manifest_package (JObj table) (JStr pkg) st
  = Ok ({| packages :=
             (packages (fst st)
              ++ [package_entry pkg (JStr "NOASSERTION")])%list;
           relationships :=
             (relationships (fst st) ++ [contains_relationship pkg])%list |},
        List.app (snd st) [missing_notice pkg]).
Proof.
  intros [H | [(coord & -> & H) | (c & root & -> & Hp & H)]].
  - unfold maven_shaped in H. apply orb_false_iff in H as [H1 H2].
    apply (unresolved_step _ _ JNull); [now rewrite H1, H2 | reflexivity].
  - destruct (Dict.lookup coord table) as [meta|] eqn:E.
    + apply (unresolved_step _ _ meta); [|now apply H].
      rewrite startswith_append, slice_prefix_9. cbn [Dict.get].
      now rewrite E.
    + apply (unresolved_step _ _ JNull); [|reflexivity].
      rewrite startswith_append, slice_prefix_9. cbn [Dict.get].
      now rewrite E.
  - destruct (suffix_form c root) as [He Hs].
    destruct (Dict.lookup root table) as [meta|] eqn:E.
    + apply (unresolved_step _ _ meta); [|now apply H].
      rewrite Hp, He, Hs. cbn [Dict.get]. now rewrite E.
    + apply (unresolved_step _ _ JNull); [|reflexivity].
      rewrite Hp, He, Hs. cbn [Dict.get]. now rewrite E.
Qed.

End Resolution.

Lemma manifest_package_maven_prefix_witness :
  manifest_package (JObj maven_table)
    (JStr ("@maven//:" ++ "com_google_guava_guava"))
    ({| packages := []; relationships := [describes_main] |}, [])
  = Ok ({| packages :=
             [package_entry "@maven//:com_google_guava_guava"
                (JStr "https://repo1.maven.org/maven2/com/google/guava/guava/32.1.2/guava-32.1.2.jar")];
           relationships :=
             [describes_main;
              contains_relationship "@maven//:com_google_guava_guava"] |},
        []).
Proof.
  apply (manifest_package_maven_prefix maven_table
           ({| packages := []; relationships := [describes_main] |}, [])
           "com_google_guava_guava"
           (JObj [("url", JStr "https://repo1.maven.org/maven2/com/google/guava/guava/32.1.2/guava-32.1.2.jar")]));
    reflexivity.
Defined.

Lemma manifest_package_file_suffix_witness :
  manifest_package (JObj maven_table)
    (JStr (String "@" "com_google_guava_guava" ++ magic_file_suffix))
    ({| packages := []; relationships := [describes_main] |}, [])
  = Ok ({| packages :=
             [package_entry "@com_google_guava_guava//file:file"
                (JStr "https://repo1.maven.org/maven2/com/google/guava/guava/32.1.2/guava-32.1.2.jar")];
           relationships :=
             [describes_main;
              contains_relationship "@com_google_guava_guava//file:file"] |},
        []).
Proof.
  apply (manifest_package_file_suffix maven_table
           ({| packages := []; relationships := [describes_main] |}, [])
           "@" "com_google_guava_guava"
           (JObj [("url", JStr "https://repo1.maven.org/maven2/com/google/guava/guava/32.1.2/guava-32.1.2.jar")]));
    reflexivity.
Defined.

Lemma manifest_package_unresolved_witness :
  manifest_package (JObj maven_table)
    (JStr "@maven//:org_apache_commons_commons_lang3")
    ({| packages := []; relationships := [describes_main] |}, [])
  = Ok ({| packages :=
             [package_entry "@maven//:org_apache_commons_commons_lang3"
                (JStr "NOASSERTION")];
           relationships :=
             [describes_main;
              contains_relationship
                "@maven//:org_apache_commons_commons_lang3"] |},
        ["MISSING  @maven//:org_apache_commons_commons_lang3"]).
Proof.
  apply (manifest_package_unresolved maven_table
           ({| packages := []; relationships := [describes_main] |}, [])
           "@maven//:org_apache_commons_commons_lang3").
  right; left. exists "org_apache_commons_commons_lang3".
  split; [reflexivity|]. intros meta H. discriminate H.
Defined.



Section PlainManifest.

Lemma plain_loop (maven_packages : json) (pkgs : list string) :
  (forall p, In p pkgs -> maven_shaped p = false) ->
  forall st,
    for_each (map JStr pkgs) (manifest_package maven_packages) st
    = Ok ({| packages :=
               (packages (fst st)
                ++ map (fun p => package_entry p (JStr "NOASSERTION")) pkgs)%list;
             relationships :=
               (relationships (fst st)
                ++ map contains_relationship pkgs)%list |},
          List.app (snd st) (map missing_notice pkgs)).
Proof.
  induction pkgs as [|p pkgs IH]; intros Hplain st.
  - destruct st as [[pk rel] err]. simpl. now rewrite !app_nil_r.
  - cbn [map for_each].
    assert (Hp : maven_shaped p = false) by (apply Hplain; now left).
    unfold maven_shaped in Hp. apply orb_false_iff in Hp as [H1 H2].
    rewrite (unresolved_step st maven_packages p JNull);
      [|now rewrite H1, H2 | reflexivity].
    cbn [bind]. rewrite IH by (intros q Hq; apply Hplain; now right).
    unfold appended. cbn [fst snd packages relationships map].
    now rewrite <- !app_assoc.
Qed.

End PlainManifest.

(** X18: in manifest mode without a Maven lock file, a manifest whose
    references are of neither Maven form goes through: the document is
    written to the output path, every package has the download location
    "NOASSERTION", and one notice per reference is printed, in order. *)
Theorem main_plain_manifest (now : string) (getenv : option string)
  (files : string -> result json) (opts : Opts.options)
  (top_level_target : json) (pkgs : list string) :
  Opts.bazel_lock opts = "" ->
  Opts.maven_install opts = "" ->
  load files (Opts.packages_used opts)
  = Ok (JObj [("top_level_target", top_level_target);
              ("packages", JArr (map JStr pkgs))]) ->
  (forall p, In p pkgs -> maven_shaped p = false) ->
  exists doc,
    main now getenv files opts
    = Ok {| written := (Opts.out opts, doc);
            diagnostics := map missing_notice pkgs |}
    /\ array doc "packages"
       = map (fun p => package_entry p (JStr "NOASSERTION")) pkgs
    /\ array doc "relationships"
       = describes_main :: map contains_relationship pkgs.
Proof.
  intros Hlock Hmaven Hinfo Hplain. unfold main.
  rewrite Hlock, Hmaven. cbn [String.eqb negb]. rewrite Hinfo. cbn [bind].
  unfold create_sbom.
  cbn [Dict.getitem Dict.lookup String.eqb Ascii.eqb Bool.eqb bind iterate].
  rewrite (plain_loop JNull pkgs Hplain). cbn [bind fst snd app].
  eexists. split; [reflexivity|]. split; reflexivity.
Qed.

Lemma main_plain_manifest_witness :
  exists doc,
    main "2026-01-01T00:00:00+00:00" None plain_file
      {| Opts.out := "sbom.json";
         Opts.packages_used := Some "packages_used.json";
         Opts.maven_install := "";
         Opts.bazel_lock := "" |}
    = Ok {| written := ("sbom.json", doc);
            diagnostics := ["MISSING  @zlib//:zlib";
                            "MISSING  @abseil-cpp//absl/base"] |}
    /\ array doc "packages"
       = map (fun p => package_entry p (JStr "NOASSERTION"))
           ["@zlib//:zlib"; "@abseil-cpp//absl/base"]
    /\ array doc "relationships"
       = describes_main
         :: map contains_relationship ["@zlib//:zlib"; "@abseil-cpp//absl/base"].
Proof.
  refine (main_plain_manifest _ None plain_file
            {| Opts.out := "sbom.json";
               Opts.packages_used := Some "packages_used.json";
               Opts.maven_install := "";
               Opts.bazel_lock := "" |}
            (JStr "//app:server") ["@zlib//:zlib"; "@abseil-cpp//absl/base"]
            _ _ _ _).
  - reflexivity.
  - reflexivity.
  - reflexivity.
  - intros p [<- | [<- | []]]; reflexivity.
Defined.

(** X19: in lock-file mode the other two inputs play no part.  When the
    lock file follows the schema, the run writes to the output path the
    document assembled from the records of the normalizer, prints no
    notice, and the document is closed; when the normalizer raises, the
    run raises the same exception. *)
Theorem main_lock_mode (now : string) (getenv : option string)
  (files : string -> result json) (opts : Opts.options) (bazel_lock : json) :
  Opts.bazel_lock opts <> "" ->
  files (Opts.bazel_lock opts) = Ok bazel_lock ->
  (lock_shape bazel_lock = true ->
   exists deps,
     bazel_lock_to_packages getenv bazel_lock = Ok deps
     /\ main now getenv files opts
        = Ok {| written :=
                  (Opts.out opts, create_sbom_from_dependencies now deps);
                diagnostics := [] |}
     /\ closed (create_sbom_from_dependencies now deps))
  /\ (forall e, bazel_lock_to_packages getenv bazel_lock = Raise e ->
                main now getenv files opts = Raise e).
Proof.
  intros Hlock Hfile. apply String.eqb_neq in Hlock.
  unfold main. rewrite Hlock. cbn [negb load]. rewrite Hfile. cbn [bind].
  split.
  - intros Hshape. unfold bazel_lock_to_packages.
    destruct (normalize_total getenv bazel_lock Hshape) as [st ->].
    cbn [bind]. exists (dependencies st). repeat split.
    apply closed_from_dependencies.
  - intros e ->. reflexivity.
Qed.

Lemma main_lock_mode_witness :
  exists deps,
    bazel_lock_to_packages None lock_mixed = Ok deps
    /\ main "2026-01-01T00:00:00Z" None lock_file
         {| Opts.out := "sbom.json";
            Opts.packages_used := None;
            Opts.maven_install := "maven_install.json";
            Opts.bazel_lock := "MODULE.bazel.lock" |}
       = Ok {| written :=
                 ("sbom.json",
                  create_sbom_from_dependencies "2026-01-01T00:00:00Z" deps);
               diagnostics := [] |}
    /\ closed (create_sbom_from_dependencies "2026-01-01T00:00:00Z" deps).
Proof.
  refine (proj1 (main_lock_mode "2026-01-01T00:00:00Z" None lock_file
            {| Opts.out := "sbom.json";
               Opts.packages_used := None;
               Opts.maven_install := "maven_install.json";
               Opts.bazel_lock := "MODULE.bazel.lock" |}
            lock_mixed _ _) _).
  - discriminate.
  - reflexivity.
  - vm_compute. reflexivity.
Defined.

(** ** The identifiers of manifest packages *)

Section Digest.

Lemma le_bytes_length (n : nat) (x : Z) :
  List.length (MD5.le_bytes n x) = n.
Proof. revert x; induction n as [|n IH]; intros x; simpl; auto. Qed.

Lemma le_bytes_range (n : nat) (x : Z) :
  Forall (fun b => 0 <= b < 256) (MD5.le_bytes n x).
Proof.
  revert x; induction n as [|n IH]; intros x; simpl; constructor; auto.
  apply Z.mod_pos_bound. lia.
Qed.

Lemma digest_bytes (msg : list Z) :
  List.length (MD5.digest msg) = 16%nat
  /\ Forall (fun b => 0 <= b < 256) (MD5.digest msg).
Proof.
  unfold MD5.digest. destruct (MD5.chunks _ _ _) as [[[a b] c] d].
  split.
  - now rewrite !length_app, !le_bytes_length.
  - repeat (apply Forall_app; split); apply le_bytes_range.
Qed.

Lemma hex_digit_is_hex (d : Z) :
  0 <= d < 16 -> is_hex (MD5.hex_digit d) = true.
Proof.
  intros H.
  assert (C : d = 0 \/ d = 1 \/ d = 2 \/ d = 3 \/ d = 4 \/ d = 5 \/ d = 6
              \/ d = 7 \/ d = 8 \/ d = 9 \/ d = 10 \/ d = 11 \/ d = 12
              \/ d = 13 \/ d = 14 \/ d = 15) by lia.
  repeat (destruct C as [-> | C]; [reflexivity|]). subst d. reflexivity.
Qed.

Lemma hex_shape (bytes : list Z) :
  Forall (fun b => 0 <= b < 256) bytes ->
  String.length (MD5.hex bytes) = (2 * List.length bytes)%nat
  /\ all_chars is_hex (MD5.hex bytes) = true.
Proof.
  induction 1 as [|b bytes Hb _ [IHl IHc]]; [now split|].
  cbn [MD5.hex String.length List.length all_chars]. split; [lia|].
  rewrite IHc, !hex_digit_is_hex; [reflexivity| |].
  - apply Z.mod_pos_bound. lia.
  - split; [apply Z.div_pos; lia | apply Z.div_lt_upper_bound; lia].
Qed.

Lemma hexdigest_shape (s : string) :
  String.length (MD5.hexdigest s) = 32%nat
  /\ all_chars is_hex (MD5.hexdigest s) = true.
Proof.
  unfold MD5.hexdigest.
  destruct (digest_bytes (MD5.utf8 s)) as [Hlen Hrange].
  destruct (hex_shape _ Hrange) as [Hl Hc]. rewrite Hlen in Hl.
  now split.
Qed.

End Digest.

(** X20: every package of a document assembled from a manifest has as
    SPDXID the text "SPDXRef-GooglePackage-" followed by 32 lowercase
    hexadecimal digits. *)
Theorem manifest_spdxid_format (created : string)
  (package_info maven_packages doc : json) (stderr : list string) :
  create_sbom created package_info maven_packages = Ok (doc, stderr) ->
  Forall (fun p => exists h,
            field p "SPDXID" = Some (JStr ("SPDXRef-GooglePackage-" ++ h))
            /\ String.length h = 32%nat
            /\ all_chars is_hex h = true)
    (array doc "packages").
Proof.
  intros H.
  destruct (create_sbom_arrays _ _ _ _ _ H)
    as (st & [_ Hp] & _ & _ & Hpk & _).
  rewrite Hpk. apply Forall_forall. intros p Hin.
  destruct (Hp p Hin) as [pkg Hid].
  exists (MD5.hexdigest pkg). split; [exact Hid|]. apply hexdigest_shape.
Qed.

Lemma manifest_spdxid_format_witness :
  exists doc stderr,
    create_sbom "2026-01-01T00:00:00+00:00" manifest_zlib JNull
    = Ok (doc, stderr)
    /\ Forall (fun p => exists h,
                 field p "SPDXID" = Some (JStr ("SPDXRef-GooglePackage-" ++ h))
                 /\ String.length h = 32%nat
                 /\ all_chars is_hex h = true)
         (array doc "packages").
Proof.
  assert (E : create_sbom "2026-01-01T00:00:00+00:00" manifest_zlib JNull
              = Ok (_, _)) by (vm_compute; reflexivity).
  eexists. eexists. split; [exact E|].
  exact (manifest_spdxid_format _ _ _ _ _ E).
Defined.

(** ** Pinned requirements *)

(** X21: of a requirement only the first whitespace-separated token
    counts.  When that token is a name, the first "==" and a version, the
    pip loop turns it into the python record of that name and version,
    with the synthesized URL, and appends it unless its key has been seen;
    it checks neither part for emptiness. *)
Theorem pip_spec_pinned (base_url : option string)
  (attrs : list (string * json)) (st : norm_state)
  (requirement name_version name version : string) (rest : list string) :
  Dict.lookup "requirement" attrs = Some (JStr requirement) ->
  Str.split_whitespace (Str.strip Str.isspace requirement)
  = name_version :: rest ->
  FirstAt "==" name_version name version ->
  pip_spec base_url (repo_spec attrs) st
  = Ok (offer st
          (Python name version
             (format_env base_url ++ "/" ++ name ++ "/" ++ version
              ++ "/" ++ name ++ "-" ++ version ++ ".tar.gz"))).
Proof.
  intros H Hparts Hfirst. unfold pip_spec, repo_spec.
  cbn [Dict.get Dict.lookup String.eqb Ascii.eqb Bool.eqb bind].
  rewrite H. cbn [bind].
  destruct requirement as [|c r]; [discriminate Hparts|].
  cbn [truthy String.eqb negb str_receiver bind].
  rewrite Hparts.
  change (PyList.index (name_version :: rest) 0) with (Ok name_version).
  cbn [bind].
  pose proof (find_first _ _ _ _ Hfirst) as Hfind.
  destruct Hfirst as [-> _].
  unfold Str.contains, Str.split1. rewrite Hfind.
  destruct (Z.leb_spec 0 (Str.len name)); [|unfold Str.len in *; lia].
  destruct (Z.ltb_spec (Str.len name) 0); [unfold Str.len in *; lia|].
  rewrite slice_to_append.
  rewrite <- append_assoc.
  replace (Str.len name + Str.len "==") with (Str.len (name ++ "=="))
    by (unfold Str.len; rewrite length_append; simpl; lia).
  rewrite slice_from_append.
  unfold offer. cbn [python_key].
  destruct (seen_mem _ _); reflexivity.
Qed.

Lemma pip_spec_pinned_witness :
  pip_spec (Some "https://pypi.org/packages")
    (repo_spec [("requirement",
                 JStr "attrs==23.1.0 --hash=sha256:1f28b4522cdc2fb4256ac1a0")])
    empty_state
  = Ok (offer empty_state
          (Python "attrs" "23.1.0"
             (format_env (Some "https://pypi.org/packages") ++ "/" ++ "attrs"
              ++ "/" ++ "23.1.0" ++ "/" ++ "attrs" ++ "-" ++ "23.1.0"
              ++ ".tar.gz"))).
Proof.
  apply (pip_spec_pinned _ _ _
           "attrs==23.1.0 --hash=sha256:1f28b4522cdc2fb4256ac1a0"
           "attrs==23.1.0" "attrs" "23.1.0"
           ["--hash=sha256:1f28b4522cdc2fb4256ac1a0"]).
  - reflexivity.
  - reflexivity.
  - apply firstAt_of_find; reflexivity.
Defined.

(** ** Lock files without extensions *)

(** X22: a lock file that is a mapping without "moduleExtensions", or
    whose module extensions hold none of the Maven, pip and python
    extensions, gives the empty list. *)
Theorem bazel_lock_to_packages_no_extension (base_url : option string)
  (members : list (string * json)) :
  Dict.lookup "moduleExtensions" members = None
  \/ (exists exts,
        Dict.lookup "moduleExtensions" members = Some (JObj exts)
        /\ Dict.lookup maven_extension_key exts = None
        /\ Dict.lookup pip_extension_key exts = None
        /\ Dict.lookup python_extension_key exts = None) ->
  bazel_lock_to_packages base_url (JObj members) = Ok [].
Proof.
  unfold bazel_lock_to_packages, normalize. cbn [Dict.get].
  intros [-> | (exts & -> & Hm & Hp & Hy)]; cbn [bind Dict.get].
  - reflexivity.
  - rewrite Hm, Hp, Hy. reflexivity.
Qed.

Lemma bazel_lock_to_packages_no_extension_witness :
  bazel_lock_to_packages None (JObj [("lockFileVersion", JInt 3)]) = Ok []
  /\ bazel_lock_to_packages None
       (JObj [("moduleExtensions", JObj [
          ("@@rules_go~//go:extensions.bzl%go_sdk", JObj [])])])
     = Ok [].
Proof.
  split.
  - apply (bazel_lock_to_packages_no_extension None
             [("lockFileVersion", JInt 3)]).
    left. reflexivity.
  - apply (bazel_lock_to_packages_no_extension None
             [("moduleExtensions", JObj [
                ("@@rules_go~//go:extensions.bzl%go_sdk", JObj [])])]).
    right. eexists. repeat split.
Defined.
